(** * Semantic analyzer of the Compiscript front end (Controller/Driver.py)

    A shallow embedding of [SemanticAnalyzer], the ANTLR visitor that
    declares variables in the scope manager and walks the initializer
    expression of each declaration through the precedence layers
    logic_or, logic_and, equality, comparison, term, factor, unary, call
    and primary.

    The visitor computes with Python objects, so the embedding has a small
    model of the Python values the visitor creates itself (None, bool,
    str) and takes everything else - the classes of Model/data_types.py,
    whose text is not part of the sources, and the parts of Python's
    operator dispatch that leave None/bool/str - as a parameter
    ([PyRuntime]).  The [print] calls of the visitor only write a log and
    are left out. *)

From Stdlib Require Import String Ascii Bool Lia.
From stdpp Require Import base option list gmap strings.

Open Scope string_scope.

(** ** Python values, exceptions and operators *)

(** The exceptions that can leave the visitor: [TypeError] is raised by
    Python's operators, [Exception_ msg] is [raise Exception(msg)] in
    [visitVarDecl], [OtherError] is whatever a method of a missing class
    raises. *)
Inductive exn : Type :=
| TypeError
| Exception_ (msg : string)
| OtherError (name : string).

Inductive outcome (A : Type) : Type :=
| Ok (a : A)
| Raise (e : exn).
Arguments Ok {A} a.
Arguments Raise {A} e.

Definition bind {A B} (m : outcome A) (k : A -> outcome B) : outcome B :=
  match m with
  | Ok a => k a
  | Raise e => Raise e
  end.

Notation "'let*' x ':=' m 'in' k" := (bind m (fun x => k))
  (at level 10, x name, m at level 100, k at level 200).

(** [o is not None]. *)
Definition is_not_None {A} (o : option A) : bool :=
  match o with Some _ => true | None => false end.

(** The four classes of Model/data_types.py the visitor instantiates. *)
Inductive DataTypeClass : Type := NumType | StringType | BooleanType | NilType.

(** A Python value: None, a bool, a str, or any other object ([Obj] is
    the carrier of the runtime parameter: instances of the data-type
    classes and whatever their methods return). *)
Inductive value (Obj : Type) : Type :=
| VNone
| VBool (b : bool)
| VStr (s : string)
| VObj (o : Obj).
Arguments VNone {Obj}.
Arguments VBool {Obj} b.
Arguments VStr {Obj} s.
Arguments VObj {Obj} o.

Inductive binop : Type :=
| OpEq | OpNe | OpLt | OpGt | OpLe | OpGe
| OpAdd | OpSub | OpMul | OpDiv | OpMod.

(** What the sources do not fix: the objects that [NumType()],
    [StringType()], [BooleanType()] and [NilType()] build ([instantiate]),
    their truth value ([obj_bool], Python's [__bool__]/[__len__] or the
    default), and the result of a binary operator whenever it is not
    decided by None, bool and str alone ([obj_binop]: special methods of
    the data-type classes, integer arithmetic on bools, printf-style
    formatting of a str). *)
Record PyRuntime : Type := {
  Obj : Type;
  instantiate : DataTypeClass -> Obj;
  obj_bool : Obj -> bool;
  obj_binop : binop -> value Obj -> value Obj -> outcome (value Obj)
}.

Section Operators.
Variable rt : PyRuntime.
Abbreviation val := (value (Obj rt)).

(** [bool(v)], as used by [if v:], [not v], [or] and [and]. *)
Definition py_truthy (v : val) : bool :=
  match v with
  | VNone => false
  | VBool b => b
  | VStr s => negb (String.eqb s "")
  | VObj o => obj_bool rt o
  end.

(** [a or b] and [a and b] return one of their operands. *)
Definition py_or (a b : val) : val := if py_truthy a then a else b.
Definition py_and (a b : val) : val := if py_truthy a then b else a.

(** [a == b] on None, bool and str never raises. *)
Definition py_eq (a b : val) : outcome val :=
  match a, b with
  | VObj _, _ | _, VObj _ => obj_binop rt OpEq a b
  | VNone, VNone => Ok (VBool true)
  | VBool x, VBool y => Ok (VBool (Bool.eqb x y))
  | VStr s, VStr t => Ok (VBool (String.eqb s t))
  | _, _ => Ok (VBool false)
  end.

Definition py_ne (a b : val) : outcome val :=
  match a, b with
  | VObj _, _ | _, VObj _ => obj_binop rt OpNe a b
  | VNone, VNone => Ok (VBool false)
  | VBool x, VBool y => Ok (VBool (negb (Bool.eqb x y)))
  | VStr s, VStr t => Ok (VBool (negb (String.eqb s t)))
  | _, _ => Ok (VBool true)
  end.

(** Ordering: str against str is lexicographic (on the UTF-8 bytes,
    which is the code-point order), bool against bool is the order
    False < True; None is unordered and str is not comparable to bool. *)
Definition py_order (op : binop) (ofstr : string -> string -> bool)
    (ofbool : bool -> bool -> bool) (a b : val) : outcome val :=
  match a, b with
  | VObj _, _ | _, VObj _ => obj_binop rt op a b
  | VStr s, VStr t => Ok (VBool (ofstr s t))
  | VBool x, VBool y => Ok (VBool (ofbool x y))
  | _, _ => Raise TypeError
  end.

Definition py_lt : val -> val -> outcome val :=
  py_order OpLt String.ltb (fun x y => negb x && y).
Definition py_gt : val -> val -> outcome val :=
  py_order OpGt (fun s t => String.ltb t s) (fun x y => x && negb y).
Definition py_le : val -> val -> outcome val :=
  py_order OpLe String.leb (fun x y => negb x || y).
Definition py_ge : val -> val -> outcome val :=
  py_order OpGe (fun s t => String.leb t s) (fun x y => x || negb y).

(** Arithmetic. [+] concatenates two str; [*] repeats a str a bool
    number of times; str has no [-] and no [/]; None supports none of
    the five.  bool with bool is integer arithmetic and str [%] is
    formatting: both belong to the runtime parameter. *)
Definition py_add (a b : val) : outcome val :=
  match a, b with
  | VObj _, _ | _, VObj _ => obj_binop rt OpAdd a b
  | VBool _, VBool _ => obj_binop rt OpAdd a b
  | VStr s, VStr t => Ok (VStr (s ++ t))
  | _, _ => Raise TypeError
  end.

Definition py_sub (a b : val) : outcome val :=
  match a, b with
  | VObj _, _ | _, VObj _ => obj_binop rt OpSub a b
  | VBool _, VBool _ => obj_binop rt OpSub a b
  | _, _ => Raise TypeError
  end.

Definition py_mul (a b : val) : outcome val :=
  match a, b with
  | VObj _, _ | _, VObj _ => obj_binop rt OpMul a b
  | VBool _, VBool _ => obj_binop rt OpMul a b
  | VBool n, VStr s | VStr s, VBool n => Ok (VStr (if n then s else ""))
  | _, _ => Raise TypeError
  end.

Definition py_div (a b : val) : outcome val :=
  match a, b with
  | VObj _, _ | _, VObj _ => obj_binop rt OpDiv a b
  | VBool _, VBool _ => obj_binop rt OpDiv a b
  | _, _ => Raise TypeError
  end.

Definition py_mod (a b : val) : outcome val :=
  match a, b with
  | VObj _, _ | _, VObj _ => obj_binop rt OpMod a b
  | VBool _, VBool _ => obj_binop rt OpMod a b
  | VStr _, _ => obj_binop rt OpMod a b
  | _, _ => Raise TypeError
  end.
End Operators.

(** ** The parse tree

    The contexts of the generated parser, with the accessors the visitor
    calls.  A binary layer is its first operand followed by the
    (operator token, operand) pairs: children 0, 1, 2, ... of the context,
    so that [getChild(2*i-1).getText()] is the token before operand [i]. *)

Inductive PrimaryContext : Type :=
| Prim_NUMBER (tok : string)
| Prim_STRING (tok : string)
| Prim_true
| Prim_false
| Prim_nil
| Prim_IDENTIFIER (tok : string)
| Prim_paren (inner : string)       (* '(' expression ')', by its text *)
| Prim_other (text : string).       (* every other alternative, by its text *)

Definition NUMBER (ctx : PrimaryContext) : option string :=
  match ctx with Prim_NUMBER tok => Some tok | _ => None end.

Definition STRING (ctx : PrimaryContext) : option string :=
  match ctx with Prim_STRING tok => Some tok | _ => None end.

Definition getText (ctx : PrimaryContext) : string :=
  match ctx with
  | Prim_NUMBER tok | Prim_STRING tok | Prim_IDENTIFIER tok => tok
  | Prim_true => "true"
  | Prim_false => "false"
  | Prim_nil => "nil"
  | Prim_paren inner => "(" ++ inner ++ ")"
  | Prim_other text => text
  end.

(** call: a primary followed by call, member and index suffixes, or an
    anonymous function. *)
Inductive CallContext : Type :=
| Call_primary (p : PrimaryContext)
| Call_funAnon.

Definition primary (ctx : CallContext) : option PrimaryContext :=
  match ctx with Call_primary p => Some p | Call_funAnon => None end.

(** unary: a prefix operator ([!] or [-]) applied to a unary, or a call. *)
Inductive UnaryContext : Type :=
| Unary_prefix (operator : string) (operand : UnaryContext)
| Unary_call (c : CallContext).

Definition call (ctx : UnaryContext) : option CallContext :=
  match ctx with Unary_call c => Some c | Unary_prefix _ _ => None end.

Record Layer (C : Type) : Type := {
  operand0 : C;
  operands : list (string * C)
}.
Arguments operand0 {C} _.
Arguments operands {C} _.

Definition FactorContext := Layer UnaryContext.
Definition TermContext := Layer FactorContext.
Definition ComparisonContext := Layer TermContext.
Definition EqualityContext := Layer ComparisonContext.
Definition Logic_andContext := Layer EqualityContext.
Definition Logic_orContext := Layer Logic_andContext.

(** assignment: an assignment to a name or member, or a logic_or. *)
Inductive AssignmentContext : Type :=
| Assignment_logic_or (l : Logic_orContext)
| Assignment_assign.

Definition logic_or (ctx : AssignmentContext) : option Logic_orContext :=
  match ctx with Assignment_logic_or l => Some l | Assignment_assign => None end.

(** expression: an assignment, or an anonymous function. *)
Inductive ExpressionContext : Type :=
| Expression_assignment (a : AssignmentContext)
| Expression_funAnon.

Definition assignment (ctx : ExpressionContext) : option AssignmentContext :=
  match ctx with Expression_assignment a => Some a | Expression_funAnon => None end.

Record VarDeclContext : Type := {
  IDENTIFIER : string;
  expression : option ExpressionContext
}.

(** declaration: a variable declaration, or a class, a function or a
    statement. *)
Inductive DeclarationContext : Type :=
| Declaration_varDecl (v : VarDeclContext)
| Declaration_other.

Definition varDecl (ctx : DeclarationContext) : option VarDeclContext :=
  match ctx with Declaration_varDecl v => Some v | Declaration_other => None end.

Definition ProgramContext := list DeclarationContext.

(** ** The expression visitors *)

Section ExpressionVisitors.
Variable rt : PyRuntime.
Abbreviation val := (value (Obj rt)).

Definition new (c : DataTypeClass) : val := VObj (instantiate rt c).

(** [getText() == None] compares a str with None and is False. *)
Definition visitPrimary (ctx : PrimaryContext) : outcome val :=
  if is_not_None (NUMBER ctx) then Ok (new NumType)
  else if is_not_None (STRING ctx) then Ok (new StringType)
  else if String.eqb (getText ctx) "true" || String.eqb (getText ctx) "false"
  then Ok (new BooleanType)
  else if String.eqb (getText ctx) "nil" || false
  then Ok (new NilType)
  else Ok (VStr "Unknown").

(** A method that falls off its end returns None. *)
Definition visitCall (ctx : CallContext) : outcome val :=
  match primary ctx with
  | Some p => visitPrimary p
  | None => Ok VNone
  end.

Definition visitUnary (ctx : UnaryContext) : outcome val :=
  match call ctx with
  | Some c => visitCall c
  | None => Ok VNone
  end.

(** The loop shared by the six binary layers:
    [for i in range(1, len(operands))]: visit operand [i], combine it
    with [result] by [step], and leave the loop when [brk] holds of the
    new result. *)
Fixpoint for_operands {C : Type} (visit : C -> outcome val)
    (step : string -> val -> val -> outcome val) (brk : val -> bool)
    (result : val) (rest : list (string * C)) : outcome val :=
  match rest with
  | [] => Ok result
  | (operator, c) :: rest' =>
      let* operand := visit c in
      let* result' := step operator result operand in
      if brk result' then Ok result' else for_operands visit step brk result' rest'
  end.

Definition visitLayer {C : Type} (visit : C -> outcome val)
    (step : string -> val -> val -> outcome val) (brk : val -> bool)
    (ctx : Layer C) : outcome val :=
  let* result := visit (operand0 ctx) in
  for_operands visit step brk result (operands ctx).

(** factor: [*], [/], [%]; any other token leaves [result] as it is;
    the loop has no [break]. *)
Definition factor_step (operator : string) (result unary_result : val) : outcome val :=
  if String.eqb operator "*" then py_mul rt result unary_result
  else if String.eqb operator "/" then py_div rt result unary_result
  else if String.eqb operator "%" then py_mod rt result unary_result
  else Ok result.

Definition visitFactor (ctx : FactorContext) : outcome val :=
  visitLayer visitUnary factor_step (fun _ => false) ctx.

Definition term_step (operator : string) (result factor_result : val) : outcome val :=
  if String.eqb operator "+" then py_add rt result factor_result
  else if String.eqb operator "-" then py_sub rt result factor_result
  else Ok result.

Definition visitTerm (ctx : TermContext) : outcome val :=
  visitLayer visitFactor term_step (fun _ => false) ctx.

(** comparison: [if not result: break]. *)
Definition comparison_step (operator : string) (result term_result : val) : outcome val :=
  if String.eqb operator "<" then py_lt rt result term_result
  else if String.eqb operator ">" then py_gt rt result term_result
  else if String.eqb operator "<=" then py_le rt result term_result
  else if String.eqb operator ">=" then py_ge rt result term_result
  else Ok result.

Definition visitComparison (ctx : ComparisonContext) : outcome val :=
  visitLayer visitTerm comparison_step (fun r => negb (py_truthy rt r)) ctx.

Definition equality_step (operator : string) (result comparison_result : val) : outcome val :=
  if String.eqb operator "==" then py_eq rt result comparison_result
  else if String.eqb operator "!=" then py_ne rt result comparison_result
  else Ok result.

Definition visitEquality (ctx : EqualityContext) : outcome val :=
  visitLayer visitComparison equality_step (fun r => negb (py_truthy rt r)) ctx.

(** logic_and: [result = result and equality_result], then
    [if not result: break]. *)
Definition visitLogic_and (ctx : Logic_andContext) : outcome val :=
  visitLayer visitEquality (fun _ result equality_result => Ok (py_and rt result equality_result))
    (fun r => negb (py_truthy rt r)) ctx.

(** logic_or: [result = result or logic_and_result], then
    [if result: break]. *)
Definition visitLogic_or (ctx : Logic_orContext) : outcome val :=
  visitLayer visitLogic_and (fun _ result logic_and_result => Ok (py_or rt result logic_and_result))
    (fun r => py_truthy rt r) ctx.

Definition visitAssignment (ctx : AssignmentContext) : outcome val :=
  match logic_or ctx with
  | Some l => visitLogic_or l
  | None => Ok VNone
  end.

Definition visitExpression (ctx : ExpressionContext) : outcome val :=
  match assignment ctx with
  | Some a => visitAssignment a
  | None => Ok VNone
  end.
End ExpressionVisitors.

(** ** Symbols, scopes and the scope manager *)

(** Model/object_types.py and Model/symbol_table.py are used through the
    two constructor calls of [visitVarDecl] only:
    [Variable(data_type=None)] and
    [Symbol(name=..., obj_type=variable, scope_level=...)].  A Variable is
    a mutable object: it lives in a store, and a Symbol holds a reference
    to it (the address), so that the assignment to [variable.data_type]
    is seen through the Symbol that is already in the scope. *)
Record Variable_ (Obj : Type) : Type := { data_type : value Obj }.
Arguments data_type {Obj} _.

Record Symbol : Type := {
  name : string;
  obj_type : nat;
  scope_level : nat
}.

(** Modelled from the spec: a Scope of Model/scope.py, its id and its
    bindings from names to Symbols; its parent is the next scope of the
    chain it is in. *)
Record Scope : Type := {
  scope_id : nat;
  bindings : gmap string Symbol
}.

(** Modelled from the spec: the class [ScopeManager] of Model/scope.py,
    which is not part of the sources.  It owns the stack of active scopes,
    here the current scope and the enclosing ones, innermost first (the
    parent of a scope is the next one of the list; the last one is the
    global scope, so the stack is never empty).  [next_id] numbers the
    scopes. *)
Record ScopeManager : Type := {
  current : Scope;
  enclosing : list Scope;
  next_id : nat
}.

Module ScopeManager.
(** Modelled from the spec: [ScopeManager()], the global scope is
    created at construction. *)
Definition init : ScopeManager :=
  {| current := {| scope_id := 0; bindings := ∅ |}; enclosing := []; next_id := 1 |}.

(** Modelled from the spec: the attribute [current_scope], the id of
    the top of the stack. *)
Definition current_scope (sm : ScopeManager) : nat := scope_id (current sm).


(** Modelled from the spec: the lookup behind the duplicate check of a
    declaration, [get_symbol(name, Variable)]: the current scope's own
    bindings, parent scopes are not checked.  Every symbol of this
    analyzer is a Variable, so the class argument filters nothing. *)
Definition get_symbol (identifier : string) (sm : ScopeManager) : option Symbol :=
  bindings (current sm) !! identifier.

(** Modelled from the spec: [add_symbol(symbol)] inserts the Symbol in
    the current scope. *)
Definition add_symbol (symbol : Symbol) (sm : ScopeManager) : ScopeManager :=
  {| current := {| scope_id := scope_id (current sm);
                   bindings := <[name symbol := symbol]> (bindings (current sm)) |};
     enclosing := enclosing sm;
     next_id := next_id sm |}.

(** Modelled from the spec: the search of [resolve(name)], the first
    match from the innermost scope of a chain outward. *)
Fixpoint search (identifier : string) (chain : list Scope) : option Symbol :=
  match chain with
  | [] => None
  | scope :: outer =>
      match bindings scope !! identifier with
      | Some symbol => Some symbol
      | None => search identifier outer
      end
  end.

(** Modelled from the spec: [resolve(name)] searches the current scope,
    then each parent outward, and returns the first match; it fails with
    UndefinedReferenceError if no scope of the chain binds the name. *)
Definition resolve (identifier : string) (sm : ScopeManager) : outcome Symbol :=
  match search identifier (current sm :: enclosing sm) with
  | Some symbol => Ok symbol
  | None => Raise (OtherError "UndefinedReferenceError")
  end.
End ScopeManager.

(** ** The declaration visitors *)

Section DeclarationVisitors.
Variable rt : PyRuntime.
Abbreviation val := (value (Obj rt)).

(** The analyzer: its scope manager and the Variable objects made so
    far. *)
Record Analyzer : Type := {
  scope_manager : ScopeManager;
  store : list (Variable_ (Obj rt))
}.

(** [SemanticAnalyzer()]: [__init__] creates the scope manager. *)
Definition init : Analyzer :=
  {| scope_manager := ScopeManager.init; store := [] |}.

(** [variable.data_type = expression_type] *)
Definition set_data_type (variable : nat) (expression_type : val) (self : Analyzer) : Analyzer :=
  {| scope_manager := scope_manager self;
     store := <[variable := {| data_type := expression_type |}]> (store self) |}.

(** [symbol.obj_type.data_type] *)
Definition symbol_type (self : Analyzer) (symbol : Symbol) : option val :=
  data_type <$> store self !! obj_type symbol.

(** [Exception(f"Variable '{identifier}' already exists in the current scope.")] *)
Definition already_exists (identifier : string) : exn :=
  Exception_ ("Variable '" ++ identifier ++ "' already exists in the current scope.").

(** [Symbol(name=identifier, obj_type=variable, scope_level=current_scope)],
    where [variable] is the Variable object made just before: it gets the
    next address of the store. *)
Definition new_symbol (identifier : string) (self : Analyzer) : Symbol :=
  {| name := identifier; obj_type := length (store self);
     scope_level := ScopeManager.current_scope (scope_manager self) |}.

(** The state after the two statements that create the Variable, with
    [data_type=None], and add its Symbol to the current scope. *)
Definition declare (identifier : string) (self : Analyzer) : Analyzer :=
  let new_var_symbol := new_symbol identifier self in
  {| scope_manager := ScopeManager.add_symbol new_var_symbol (scope_manager self);
     store := store self ++ [ {| data_type := VNone |} ] |}.

(** A visitor method that changes the analyzer returns the analyzer it
    leaves behind, also when it raises. *)
Definition visitVarDecl (ctx : VarDeclContext) (self : Analyzer) : Analyzer * outcome unit :=
  let identifier := IDENTIFIER ctx in
  match ScopeManager.get_symbol identifier (scope_manager self) with
  | Some existing_var => (self, Raise (already_exists identifier))
  | None =>
      let variable := length (store self) in
      let self := declare identifier self in
      match expression ctx with
      | Some e =>
          match visitExpression rt e with
          | Ok expression_type => (set_data_type variable expression_type self, Ok tt)
          | Raise err => (self, Raise err)
          end
      | None => (self, Ok tt)
      end
  end.

Definition visitDeclaration (ctx : DeclarationContext) (self : Analyzer) : Analyzer * outcome unit :=
  match varDecl ctx with
  | Some v => visitVarDecl v self
  | None => (self, Ok tt)
  end.

(** [visitChildren]: the declarations in order; an exception leaves the
    walk. *)
Fixpoint visitProgram (ctx : ProgramContext) (self : Analyzer) : Analyzer * outcome unit :=
  match ctx with
  | [] => (self, Ok tt)
  | child :: children =>
      match visitDeclaration child self with
      | (self', Ok _) => visitProgram children self'
      | (self', Raise err) => (self', Raise err)
      end
  end.

(** The type a name resolves to. *)
Definition resolved_type (identifier : string) (self : Analyzer) : outcome (option val) :=
  let* symbol := ScopeManager.resolve identifier (scope_manager self) in
  Ok (symbol_type self symbol).
End DeclarationVisitors.
Arguments scope_manager {rt} _.
Arguments store {rt} _.
Arguments new_symbol {rt} identifier self.

(** ** Building trees *)

Definition single {C : Type} (c : C) : Layer C :=
  {| operand0 := c; operands := [] |}.

Definition binary {C : Type} (a : C) (operator : string) (b : C) : Layer C :=
  {| operand0 := a; operands := [(operator, b)] |}.

Definition unary_of (p : PrimaryContext) : UnaryContext := Unary_call (Call_primary p).
Definition factor_of (u : UnaryContext) : FactorContext := single u.
Definition term_of (u : UnaryContext) : TermContext := single (factor_of u).
Definition comparison_of (u : UnaryContext) : ComparisonContext := single (term_of u).
Definition equality_of (u : UnaryContext) : EqualityContext := single (comparison_of u).
Definition logic_and_of (u : UnaryContext) : Logic_andContext := single (equality_of u).
Definition logic_or_of (u : UnaryContext) : Logic_orContext := single (logic_and_of u).
Definition expression_of (u : UnaryContext) : ExpressionContext :=
  Expression_assignment (Assignment_logic_or (logic_or_of u)).

(** [var identifier = p;] and [var identifier;] *)
Definition var_init (identifier : string) (u : UnaryContext) : DeclarationContext :=
  Declaration_varDecl {| IDENTIFIER := identifier; expression := Some (expression_of u) |}.
Definition var_plain (identifier : string) : DeclarationContext :=
  Declaration_varDecl {| IDENTIFIER := identifier; expression := None |}.

(** The literals of the language. *)
Inductive Literal : Type :=
| Lit_number (tok : string)
| Lit_string (tok : string)
| Lit_true
| Lit_false
| Lit_nil.

Definition literal (l : Literal) : PrimaryContext :=
  match l with
  | Lit_number tok => Prim_NUMBER tok
  | Lit_string tok => Prim_STRING tok
  | Lit_true => Prim_true
  | Lit_false => Prim_false
  | Lit_nil => Prim_nil
  end.

Definition literal_class (l : Literal) : DataTypeClass :=
  match l with
  | Lit_number _ => NumType
  | Lit_string _ => StringType
  | Lit_true | Lit_false => BooleanType
  | Lit_nil => NilType
  end.

(** The words the lexer reserves among those [visitPrimary] compares the
    text with: an IDENTIFIER token is never one of them. *)
Definition reserved (tok : string) : bool :=
  String.eqb tok "true" || String.eqb tok "false" || String.eqb tok "nil".

(** ** A runtime to run the visitor with

    Data-type classes that define no special method: an instance is
    true, is equal to itself only (two instances the visitor compares
    were built by two calls, so they differ), and has neither an order nor
    arithmetic.  With these classes the visitor never applies arithmetic
    to two bools nor [%] to a str holding a conversion specifier, and the
    runtime answers TypeError there as well. *)
Definition plain_binop (op : binop) (a b : value DataTypeClass) : outcome (value DataTypeClass) :=
  match op with
  | OpEq => Ok (VBool false)
  | OpNe => Ok (VBool true)
  | _ => Raise TypeError
  end.

Definition plain_classes : PyRuntime :=
  {| Obj := DataTypeClass;
     instantiate := fun c => c;
     obj_bool := fun _ => true;
     obj_binop := plain_binop |}.

(** ** The specification's reading of the results *)

Module Spec.
(** The types of the specification. *)
Inductive Type_ : Type := Num | String_ | Boolean | Nil | Unknown | Error.

(** The rule for [and] and [or], in the specification's words: an Error
    operand is absorbed; a concretely non-Boolean operand gives Error;
    Unknown propagates; two Booleans give Boolean. *)
Definition logic_rule (a b : Type_) : Type_ :=
  match a, b with
  | Error, _ | _, Error => Error
  | Num, _ | String_, _ | Nil, _ | _, Num | _, String_ | _, Nil => Error
  | Unknown, _ | _, Unknown => Unknown
  | Boolean, Boolean => Boolean
  end.


Section Reading.
Variable rt : PyRuntime.
Abbreviation val := (value (Obj rt)).

(** When a value of the visitor stands for a type of the
    specification: the instance of the class for the four concrete
    types, the string the visitor returns for Unknown; the visitor has
    no value for Error, so that any object of the runtime is accepted
    for it. *)
Definition denotes (v : val) (t : Type_) : Prop :=
  match t with
  | Num => v = new rt NumType
  | String_ => v = new rt StringType
  | Boolean => v = new rt BooleanType
  | Nil => v = new rt NilType
  | Unknown => v = VStr "Unknown"
  | Error => exists o, v = VObj o
  end.

Definition typed_as {C : Type} (visit : C -> outcome val) (c : C) (t : Type_) : Prop :=
  exists v, visit c = Ok v /\ denotes v t.

(** The result of a layer is the left fold of a rule over the types
    of its operands. *)
Definition folds_rule {C : Type} (rule : Type_ -> Type_ -> Type_)
    (visit_operand : C -> outcome val) (visit : Layer C -> outcome val)
    (ctx : Layer C) : Prop :=
  forall t0 ts,
    typed_as visit_operand (operand0 ctx) t0 ->
    Forall2 (typed_as visit_operand) (snd <$> operands ctx) ts ->
    typed_as visit ctx (fold_left rule ts t0).
End Reading.
End Spec.

(** What the loops of [visitLogic_or] and [visitLogic_and] select among
    the values of the operands. *)
Section Selection.
Variable rt : PyRuntime.
Abbreviation val := (value (Obj rt)).

Fixpoint first_truthy_or_last (v0 : val) (vs : list val) : val :=
  if py_truthy rt v0 then v0
  else match vs with
       | [] => v0
       | v :: vs' => first_truthy_or_last v vs'
       end.

Fixpoint first_falsy_or_last (v0 : val) (vs : list val) : val :=
  if py_truthy rt v0 then
    match vs with
    | [] => v0
    | v :: vs' => first_falsy_or_last v vs'
    end
  else v0.
End Selection.

(** ** Sample trees *)

Definition ident (tok : string) : UnaryContext := unary_of (Prim_IDENTIFIER tok).
Definition number (tok : string) : UnaryContext := unary_of (Prim_NUMBER tok).
(** A string literal: the token keeps its quotation marks. *)
Definition quoted (text : string) : string :=
  String (ascii_of_nat 34) (text ++ String (ascii_of_nat 34) EmptyString).
Definition str_lit (text : string) : UnaryContext := unary_of (Prim_STRING (quoted text)).

(** [x or 1] *)
Definition x_or_1 : Logic_orContext :=
  binary (logic_and_of (ident "x")) "or" (logic_and_of (number "1")).

(** [x or 1 or y] and [x and 1] *)
Definition x_or_1_or_y : Logic_orContext :=
  {| operand0 := logic_and_of (ident "x");
     operands := [("or", logic_and_of (number "1")); ("or", logic_and_of (ident "y"))] |}.
Definition x_and_1 : Logic_andContext :=
  binary (equality_of (ident "x")) "and" (equality_of (number "1")).



(** [x - y] as an initializer *)
Definition x_minus_y : ExpressionContext :=
  Expression_assignment (Assignment_logic_or (single (single (single (single
    (binary (factor_of (ident "x")) "-" (factor_of (ident "y")))))))).

(** [var a = x - y; var b = 1;] *)
Definition bad_then_good : ProgramContext :=
  [ Declaration_varDecl {| IDENTIFIER := "a"; expression := Some x_minus_y |};
    var_init "b" (number "1") ].


(** [var x = 1; var x = "a"; var y;] *)
Definition x_twice : ProgramContext :=
  [ var_init "x" (number "1"); var_init "x" (str_lit "a"); var_plain "y" ].

(** ** Notions for the properties of the walk *)

(** The variable declarations among the children of a program, and their
    names. *)
Definition varDecls (ctx : ProgramContext) : list VarDeclContext := omap varDecl ctx.
Definition declared_names (ctx : ProgramContext) : list string := IDENTIFIER <$> varDecls ctx.

(** The values whose operators belong to the runtime parameter. *)
Definition is_object {Obj : Type} (v : value Obj) : bool :=
  match v with VObj _ => true | _ => false end.

Section WalkNotions.
Variable rt : PyRuntime.

(** The initializer of a declaration, if any, is visited without an
    exception. *)
Definition initializer_ok (v : VarDeclContext) : bool :=
  match expression v with
  | Some e => match visitExpression rt e with Ok _ => true | Raise _ => false end
  | None => true
  end.

(** The data type a declaration gives its Variable: the value of the
    initializer, None without one. *)
Definition initial_type (v : VarDeclContext) : value (Obj rt) :=
  match expression v with
  | Some e => match visitExpression rt e with Ok t => t | Raise _ => VNone end
  | None => VNone
  end.

(** The Symbols of a scope are filed under their own name, refer to a
    Variable of the store (of length [n]) and carry the id of the scope
    as their scope level. *)
Definition scope_ok (n : nat) (scope : Scope) : Prop :=
  forall x symbol,
    bindings scope !! x = Some symbol ->
    name symbol = x /\ obj_type symbol < n /\ scope_level symbol = scope_id scope.

Definition well_formed (self : Analyzer rt) : Prop :=
  Forall (scope_ok (length (store self)))
    (current (scope_manager self) :: enclosing (scope_manager self)).

(** No two names of the current scope share a Variable. *)
Definition distinct_variables (self : Analyzer rt) : Prop :=
  forall x y sx sy,
    ScopeManager.get_symbol x (scope_manager self) = Some sx ->
    ScopeManager.get_symbol y (scope_manager self) = Some sy ->
    obj_type sx = obj_type sy ->
    x = y.
End WalkNotions.

(** [x < y < z - w] and [x == y == z] *)
Definition x_lt_y_lt_z_minus_w : ComparisonContext :=
  {| operand0 := term_of (ident "x");
     operands := [("<", term_of (ident "y"));
                  ("<", binary (factor_of (ident "z")) "-" (factor_of (ident "w")))] |}.
Definition x_ne_y_eq_z : EqualityContext :=
  {| operand0 := comparison_of (ident "x");
     operands := [("!=", comparison_of (ident "y")); ("==", comparison_of (ident "z"))] |}.

(** [var a = 1; print a; var b; fun f() {}] *)
Definition mixed_program : ProgramContext :=
  [ var_init "a" (number "1"); Declaration_other; var_plain "b"; Declaration_other ].

(** ** More notions and samples *)

(** The primaries [visitPrimary] has a branch for: a NUMBER, a STRING, or
    the text of [true], [false] or [nil]. *)
Definition has_typing_rule (p : PrimaryContext) : bool :=
  is_not_None (NUMBER p) || is_not_None (STRING p) || reserved (getText p).











(** * Properties *)

(** ** The expression layers *)

Section ExpressionFacts.
Variable rt : PyRuntime.
Abbreviation val := (value (Obj rt)).

Lemma bind_Ok_r {A : Type} (m : outcome A) : (let* a := m in Ok a) = m.
Proof. by destruct m. Qed.

Lemma visitLayer_single {C : Type} (visit : C -> outcome val) step brk (c : C) :
  visitLayer rt visit step brk (single c) = visit c.
Proof. unfold visitLayer; simpl. apply bind_Ok_r. Qed.

(** With two operands the [break] makes no difference. *)
Lemma visitLayer_binary {C : Type} (visit : C -> outcome val) step brk (a b : C) operator :
  visitLayer rt visit step brk (binary a operator b)
  = (let* v0 := visit a in let* v1 := visit b in step operator v0 v1).
Proof.
  unfold visitLayer; simpl.
  destruct (visit a) as [v0|]; simpl; [|done].
  destruct (visit b) as [v1|]; simpl; [|done].
  destruct (step operator v0 v1) as [r|]; simpl; [|done].
  by destruct (brk r).
Qed.

Lemma visitFactor_of u : visitFactor rt (factor_of u) = visitUnary rt u.
Proof. apply visitLayer_single. Qed.

Lemma visitTerm_of u : visitTerm rt (term_of u) = visitUnary rt u.
Proof. unfold visitTerm, term_of. by rewrite visitLayer_single, visitFactor_of. Qed.

Lemma visitComparison_of u : visitComparison rt (comparison_of u) = visitUnary rt u.
Proof. unfold visitComparison, comparison_of. by rewrite visitLayer_single, visitTerm_of. Qed.

Lemma visitEquality_of u : visitEquality rt (equality_of u) = visitUnary rt u.
Proof. unfold visitEquality, equality_of. by rewrite visitLayer_single, visitComparison_of. Qed.

Lemma visitLogic_and_of u : visitLogic_and rt (logic_and_of u) = visitUnary rt u.
Proof. unfold visitLogic_and, logic_and_of. by rewrite visitLayer_single, visitEquality_of. Qed.

Lemma visitLogic_or_of u : visitLogic_or rt (logic_or_of u) = visitUnary rt u.
Proof. unfold visitLogic_or, logic_or_of. by rewrite visitLayer_single, visitLogic_and_of. Qed.

Lemma visitExpression_of u : visitExpression rt (expression_of u) = visitUnary rt u.
Proof. unfold expression_of; simpl. apply visitLogic_or_of. Qed.

Lemma visitUnary_of p : visitUnary rt (unary_of p) = visitPrimary rt p.
Proof. reflexivity. Qed.

Lemma visitPrimary_literal l : visitPrimary rt (literal l) = Ok (new rt (literal_class l)).
Proof. by destruct l. Qed.

Lemma visitPrimary_IDENTIFIER tok :
  reserved tok = false -> visitPrimary rt (Prim_IDENTIFIER tok) = Ok (VStr "Unknown").
Proof.
  unfold reserved, visitPrimary; simpl. intros H.
  apply orb_false_elim in H as [H Hnil].
  rewrite H, Hnil. reflexivity.
Qed.

Lemma visitPrimary_paren inner : visitPrimary rt (Prim_paren inner) = Ok (VStr "Unknown").
Proof. reflexivity. Qed.

Lemma py_or_truthy a b : py_truthy rt a = true -> py_or rt a b = a.
Proof. unfold py_or. by intros ->. Qed.

Lemma py_or_falsy a b : py_truthy rt a = false -> py_or rt a b = b.
Proof. unfold py_or. by intros ->. Qed.

Lemma py_and_truthy a b : py_truthy rt a = true -> py_and rt a b = b.
Proof. unfold py_and. by intros ->. Qed.

Lemma py_and_falsy a b : py_truthy rt a = false -> py_and rt a b = a.
Proof. unfold py_and. by intros ->. Qed.

Lemma first_truthy_or_last_truthy v0 vs :
  py_truthy rt v0 = true -> first_truthy_or_last rt v0 vs = v0.
Proof. intros H. destruct vs; simpl; by rewrite H. Qed.

Lemma first_truthy_or_last_falsy v0 v vs :
  py_truthy rt v0 = false ->
  first_truthy_or_last rt v0 (v :: vs) = first_truthy_or_last rt v vs.
Proof. intros H. simpl. by rewrite H. Qed.

Lemma first_falsy_or_last_falsy v0 vs :
  py_truthy rt v0 = false -> first_falsy_or_last rt v0 vs = v0.
Proof. intros H. destruct vs; simpl; by rewrite H. Qed.

Lemma first_falsy_or_last_truthy v0 v vs :
  py_truthy rt v0 = true ->
  first_falsy_or_last rt v0 (v :: vs) = first_falsy_or_last rt v vs.
Proof. intros H. simpl. by rewrite H. Qed.

Lemma first_truthy_or_last_nil v0 : first_truthy_or_last rt v0 [] = v0.
Proof. simpl. by destruct (py_truthy rt v0). Qed.

Lemma first_falsy_or_last_nil v0 : first_falsy_or_last rt v0 [] = v0.
Proof. simpl. by destruct (py_truthy rt v0). Qed.

(** The loop of [visitLogic_or] on operands that all have a value. *)
Lemma logic_or_loop {C : Type} (visit : C -> outcome val) (rest : list (string * C)) :
  forall (result : val) (vs : list val),
    Forall2 (fun c v => visit c = Ok v) (snd <$> rest) vs ->
    for_operands rt visit (fun _ r v => Ok (py_or rt r v)) (py_truthy rt) result rest
    = Ok (first_truthy_or_last rt result vs).
Proof.
  induction rest as [|[operator c] rest IH]; intros result vs Hvs.
  - inversion Hvs; subst. by rewrite first_truthy_or_last_nil.
  - inversion Hvs as [|? v ? vs' Hv Hvs']; subst.
    cbn [for_operands]. rewrite Hv; cbn [bind].
    destruct (py_truthy rt result) eqn:Hr.
    { by rewrite (py_or_truthy _ _ Hr), Hr, first_truthy_or_last_truthy. }
    rewrite (py_or_falsy _ _ Hr), (first_truthy_or_last_falsy _ _ _ Hr).
    destruct (py_truthy rt v) eqn:Hv'.
    + by rewrite first_truthy_or_last_truthy.
    + apply IH, Hvs'.
Qed.

Lemma logic_and_loop {C : Type} (visit : C -> outcome val) (rest : list (string * C)) :
  forall (result : val) (vs : list val),
    Forall2 (fun c v => visit c = Ok v) (snd <$> rest) vs ->
    for_operands rt visit (fun _ r v => Ok (py_and rt r v))
      (fun r => negb (py_truthy rt r)) result rest
    = Ok (first_falsy_or_last rt result vs).
Proof.
  induction rest as [|[operator c] rest IH]; intros result vs Hvs.
  - inversion Hvs; subst. by rewrite first_falsy_or_last_nil.
  - inversion Hvs as [|? v ? vs' Hv Hvs']; subst.
    cbn [for_operands]. rewrite Hv; cbn [bind].
    destruct (py_truthy rt result) eqn:Hr.
    2: { by rewrite (py_and_falsy _ _ Hr), Hr, first_falsy_or_last_falsy. }
    rewrite (py_and_truthy _ _ Hr), (first_falsy_or_last_truthy _ _ _ Hr).
    destruct (py_truthy rt v) eqn:Hv'; cbn [negb].
    + apply IH, Hvs'.
    + by rewrite first_falsy_or_last_falsy.
Qed.
End ExpressionFacts.

(** ** Logical connectives *)

(** C1, as the code has it: the loops of [visitLogic_or] and
    [visitLogic_and] fold Python's own [or] and [and] over the values of
    the operands and leave on the truth value of the result.  When the
    operands have the values [v0, v1, ..., vn], a logical-or returns the
    first value that is true, or the last one when none is; a logical-and
    returns the first value that is false, or the last one when none
    is. *)
Theorem logic_layers_select_by_truth_value (rt : PyRuntime) :
  (forall (ctx : Logic_orContext) v0 vs,
     visitLogic_and rt (operand0 ctx) = Ok v0 ->
     Forall2 (fun c v => visitLogic_and rt c = Ok v) (snd <$> operands ctx) vs ->
     visitLogic_or rt ctx = Ok (first_truthy_or_last rt v0 vs))
  /\
  (forall (ctx : Logic_andContext) v0 vs,
     visitEquality rt (operand0 ctx) = Ok v0 ->
     Forall2 (fun c v => visitEquality rt c = Ok v) (snd <$> operands ctx) vs ->
     visitLogic_and rt ctx = Ok (first_falsy_or_last rt v0 vs)).
Proof.
  split; intros ctx v0 vs H0 Hvs.
  - unfold visitLogic_or, visitLayer. rewrite H0; cbn [bind].
    by apply logic_or_loop.
  - unfold visitLogic_and, visitLayer. rewrite H0; cbn [bind].
    by apply logic_and_loop.
Qed.

Lemma logic_layers_select_by_truth_value_witness :
  visitLogic_or plain_classes x_or_1_or_y = Ok (VStr "Unknown")
  /\ visitLogic_and plain_classes x_and_1 = Ok (VObj NumType).
Proof.
  split.
  - apply (proj1 (logic_layers_select_by_truth_value plain_classes) x_or_1_or_y
             (VStr "Unknown") [VObj NumType; VStr "Unknown"]).
    + reflexivity.
    + repeat constructor.
  - apply (proj2 (logic_layers_select_by_truth_value plain_classes) x_and_1
             (VStr "Unknown") [VObj NumType]).
    + reflexivity.
    + repeat constructor.
Defined.

(** The operand after a true one is still visited, the ones after it are
    not: they may even raise. *)
Lemma visitLogic_or_short_circuit (rt : PyRuntime) (ctx : Logic_orContext) tok c rest v0 v1 :
  operands ctx = (tok, c) :: rest ->
  visitLogic_and rt (operand0 ctx) = Ok v0 ->
  visitLogic_and rt c = Ok v1 ->
  py_truthy rt v0 = true ->
  visitLogic_or rt ctx = Ok v0.
Proof.
  intros Hops H0 H1 Ht. unfold visitLogic_or, visitLayer.
  rewrite H0, Hops; cbn [bind for_operands]. rewrite H1; cbn [bind].
  by rewrite (py_or_truthy _ _ _ Ht), Ht.
Qed.

(** C1, as stated, fails at [x or 1]: the operands have the types Unknown
    and Num, the rule gives Error, and the code returns the string of the
    first operand - with any classes in Model/data_types.py. *)
Lemma logic_or_is_not_the_fold_of_the_rule :
  ~ exists rt : PyRuntime,
      Spec.folds_rule rt Spec.logic_rule (visitLogic_and rt) (visitLogic_or rt) x_or_1.
Proof.
  intros [rt H].
  destruct (H Spec.Unknown [Spec.Num]) as (v & Hv & Hd).
  - exists (VStr "Unknown"). by split.
  - constructor; [|constructor]. exists (new rt NumType). by split.
  - vm_compute in Hv. injection Hv as <-.
    simpl in Hd. destruct Hd as [o Ho]. discriminate Ho.
Qed.

(** ** Primary expressions *)

(** C2, as stated, fails at the identifier [x]: where no scope binds it
    the code returns a value instead of failing, and after [var x = 1;]
    it returns the string instead of the type of [x]. *)
Lemma identifier_primary_does_not_resolve :
  (~ exists rt : PyRuntime,
       (let* v := visitPrimary rt (Prim_IDENTIFIER "x") in Ok (Some v))
       = resolved_type rt "x" (init rt))
  /\
  (~ exists rt : PyRuntime,
       (let* v := visitPrimary rt (Prim_IDENTIFIER "x") in Ok (Some v))
       = resolved_type rt "x" (fst (visitProgram rt [var_init "x" (number "1")] (init rt)))).
Proof.
  split; intros [rt H]; vm_compute in H; discriminate H.
Qed.

(** ** Additive and multiplicative expressions *)

(** A loop without [break] is a left fold: the last operator is applied
    to the result of all the others. *)
Lemma for_operands_snoc (rt : PyRuntime) {C : Type} (visit : C -> outcome (value (Obj rt)))
    step (rest : list (string * C)) operator c :
  forall result,
    for_operands rt visit step (fun _ => false) result (rest ++ [(operator, c)])
    = (let* r := for_operands rt visit step (fun _ => false) result rest in
       let* v := visit c in
       step operator r v).
Proof.
  induction rest as [|[op' c'] rest IH]; intros result; simpl.
  - destruct (visit c) as [v|]; simpl; [|done]. by destruct (step operator result v).
  - destruct (visit c') as [v'|]; simpl; [|done].
    destruct (step op' result v') as [r|]; simpl; [|done]. apply IH.
Qed.

(** ** Prefix operators and the other missing branches *)

(** C10: a unary with a prefix operator, an expression without an
    assignment child and an assignment without a logic_or child are
    visited to None; the None of a prefixed unary goes up unchanged
    through the layers that have a single operand, and is the left
    operand of the operator of a layer that has two. *)
Theorem prefixed_unary_is_None (rt : PyRuntime) (operator : string) (operand : UnaryContext) :
  let u := Unary_prefix operator operand in
  visitUnary rt u = Ok VNone
  /\ visitExpression rt Expression_funAnon = Ok VNone
  /\ visitAssignment rt Assignment_assign = Ok VNone
  /\ visitFactor rt (factor_of u) = Ok VNone
  /\ visitTerm rt (term_of u) = Ok VNone
  /\ visitComparison rt (comparison_of u) = Ok VNone
  /\ visitEquality rt (equality_of u) = Ok VNone
  /\ visitLogic_and rt (logic_and_of u) = Ok VNone
  /\ visitLogic_or rt (logic_or_of u) = Ok VNone
  /\ visitExpression rt (expression_of u) = Ok VNone
  /\ (forall tok w,
        visitFactor rt (binary u tok w)
        = (let* v := visitUnary rt w in factor_step rt tok VNone v))
  /\ (forall tok w,
        visitTerm rt (binary (factor_of u) tok w)
        = (let* v := visitFactor rt w in term_step rt tok VNone v))
  /\ (forall tok w,
        visitComparison rt (binary (term_of u) tok w)
        = (let* v := visitTerm rt w in comparison_step rt tok VNone v))
  /\ (forall tok w,
        visitEquality rt (binary (comparison_of u) tok w)
        = (let* v := visitComparison rt w in equality_step rt tok VNone v))
  /\ (forall tok w,
        visitLogic_and rt (binary (equality_of u) tok w)
        = (let* v := visitEquality rt w in Ok VNone))
  /\ (forall tok w,
        visitLogic_or rt (binary (logic_and_of u) tok w)
        = (let* v := visitLogic_and rt w in Ok v)).
Proof.
  intros u.
  assert (Hu : visitUnary rt u = Ok VNone) by reflexivity.
  repeat match goal with |- _ /\ _ => split end.
  1-3: reflexivity.
  - by rewrite visitFactor_of.
  - by rewrite visitTerm_of.
  - by rewrite visitComparison_of.
  - by rewrite visitEquality_of.
  - by rewrite visitLogic_and_of.
  - by rewrite visitLogic_or_of.
  - by rewrite visitExpression_of.
  - intros tok w. unfold visitFactor. by rewrite visitLayer_binary, Hu.
  - intros tok w. unfold visitTerm. by rewrite visitLayer_binary, visitFactor_of, Hu.
  - intros tok w. unfold visitComparison. by rewrite visitLayer_binary, visitTerm_of, Hu.
  - intros tok w. unfold visitEquality.
    by rewrite visitLayer_binary, visitComparison_of, Hu.
  - intros tok w. unfold visitLogic_and.
    by rewrite visitLayer_binary, visitEquality_of, Hu.
  - intros tok w. unfold visitLogic_or.
    by rewrite visitLayer_binary, visitLogic_and_of, Hu.
Qed.

(** ** Declarations *)

Section DeclarationFacts.
Variable rt : PyRuntime.
Abbreviation val := (value (Obj rt)).

Lemma visitVarDecl_existing ctx self existing_var :
  ScopeManager.get_symbol (IDENTIFIER ctx) (scope_manager self) = Some existing_var ->
  visitVarDecl rt ctx self = (self, Raise (already_exists (IDENTIFIER ctx))).
Proof. unfold visitVarDecl. by intros ->. Qed.

Lemma visitVarDecl_fresh ctx self :
  ScopeManager.get_symbol (IDENTIFIER ctx) (scope_manager self) = None ->
  visitVarDecl rt ctx self
  = match expression ctx with
    | Some e =>
        match visitExpression rt e with
        | Ok expression_type =>
            (set_data_type rt (length (store self)) expression_type
               (declare rt (IDENTIFIER ctx) self), Ok tt)
        | Raise err => (declare rt (IDENTIFIER ctx) self, Raise err)
        end
    | None => (declare rt (IDENTIFIER ctx) self, Ok tt)
    end.
Proof. unfold visitVarDecl. by intros ->. Qed.

Lemma get_symbol_declare identifier self :
  ScopeManager.get_symbol identifier (scope_manager (declare rt identifier self))
  = Some (new_symbol identifier self).
Proof. unfold ScopeManager.get_symbol; simpl. apply lookup_insert_eq. Qed.

Lemma get_symbol_declare_ne identifier other self :
  identifier <> other ->
  ScopeManager.get_symbol other (scope_manager (declare rt identifier self))
  = ScopeManager.get_symbol other (scope_manager self).
Proof. intros Hne. unfold ScopeManager.get_symbol; simpl. by apply lookup_insert_ne. Qed.

Lemma resolve_current identifier symbol (sm : ScopeManager) :
  ScopeManager.get_symbol identifier sm = Some symbol ->
  ScopeManager.resolve identifier sm = Ok symbol.
Proof.
  unfold ScopeManager.resolve, ScopeManager.get_symbol. cbn [ScopeManager.search].
  by intros ->.
Qed.

Lemma store_declare identifier self :
  store (declare rt identifier self) !! length (store self) = Some {| data_type := VNone |}.
Proof. simpl. rewrite lookup_app_r by lia. by rewrite Nat.sub_diag. Qed.

Lemma store_set_data_type identifier t self :
  store (set_data_type rt (length (store self)) t (declare rt identifier self))
    !! length (store self)
  = Some {| data_type := t |}.
Proof. simpl. apply list_lookup_insert_eq. rewrite length_app; simpl. lia. Qed.

(** The scope manager a declaration leaves behind is that of [declare],
    or the one it found. *)
Lemma scope_manager_visitVarDecl ctx self :
  scope_manager (fst (visitVarDecl rt ctx self))
  = match ScopeManager.get_symbol (IDENTIFIER ctx) (scope_manager self) with
    | Some _ => scope_manager self
    | None => scope_manager (declare rt (IDENTIFIER ctx) self)
    end.
Proof.
  unfold visitVarDecl.
  destruct (ScopeManager.get_symbol _ _); [done|].
  destruct (expression ctx) as [e|]; [|done].
  by destruct (visitExpression rt e).
Qed.

(** After its declaration was visited, with or without success, the
    name is bound in the current scope. *)
Lemma get_symbol_visitVarDecl ctx self :
  is_Some (ScopeManager.get_symbol (IDENTIFIER ctx)
             (scope_manager (fst (visitVarDecl rt ctx self)))).
Proof.
  rewrite scope_manager_visitVarDecl.
  destruct (ScopeManager.get_symbol _ (scope_manager self)) eqn:H.
  - by rewrite H.
  - by rewrite get_symbol_declare.
Qed.

(** A binding of the current scope is never replaced. *)
Lemma get_symbol_kept_visitVarDecl ctx self x symbol :
  ScopeManager.get_symbol x (scope_manager self) = Some symbol ->
  ScopeManager.get_symbol x (scope_manager (fst (visitVarDecl rt ctx self))) = Some symbol.
Proof.
  intros Hx. rewrite scope_manager_visitVarDecl.
  destruct (ScopeManager.get_symbol (IDENTIFIER ctx) (scope_manager self)) eqn:H; [done|].
  rewrite get_symbol_declare_ne; [done|]. intros Heq. rewrite Heq in H. congruence.
Qed.

(** The Variable objects that exist are not touched by a declaration. *)
Lemma store_kept_visitVarDecl ctx self variable :
  variable < length (store self) ->
  store (fst (visitVarDecl rt ctx self)) !! variable = store self !! variable
  /\ variable < length (store (fst (visitVarDecl rt ctx self))).
Proof.
  intros Hlt. unfold visitVarDecl.
  destruct (ScopeManager.get_symbol _ _); [done|].
  assert (Hd : store (declare rt (IDENTIFIER ctx) self) !! variable = store self !! variable
               /\ variable < length (store (declare rt (IDENTIFIER ctx) self))).
  { simpl. rewrite lookup_app_l by done. rewrite length_app. split; [done|lia]. }
  destruct (expression ctx) as [e|]; [|done].
  destruct (visitExpression rt e) as [t|]; [|done].
  cbn [fst set_data_type store]. rewrite length_insert.
  rewrite list_lookup_insert_ne by lia. exact Hd.
Qed.

Lemma store_kept_visitProgram ctx : forall self variable,
  variable < length (store self) ->
  store (fst (visitProgram rt ctx self)) !! variable = store self !! variable.
Proof.
  induction ctx as [|child children IH]; intros self variable Hlt; [done|].
  cbn [visitProgram]. destruct child as [v|]; cbn [visitDeclaration varDecl].
  - destruct (store_kept_visitVarDecl v self variable Hlt) as [Hkept Hlt'].
    destruct (visitVarDecl rt v self) as [self' [[]|err]]; cbn [fst] in *.
    + by rewrite IH.
    + done.
  - by apply IH.
Qed.

Lemma get_symbol_kept_visitProgram ctx : forall self x symbol,
  ScopeManager.get_symbol x (scope_manager self) = Some symbol ->
  ScopeManager.get_symbol x (scope_manager (fst (visitProgram rt ctx self))) = Some symbol.
Proof.
  induction ctx as [|child children IH]; intros self x symbol Hx; [done|].
  cbn [visitProgram]. destruct child as [v|]; cbn [visitDeclaration varDecl].
  - pose proof (get_symbol_kept_visitVarDecl v self x symbol Hx) as Hkept.
    destruct (visitVarDecl rt v self) as [self' [[]|err]]; cbn [fst] in *.
    + by apply IH.
    + done.
  - by apply IH.
Qed.
End DeclarationFacts.

(** C3, as the code has it: an expression-time failure is a Python
    exception, and it aborts the walk.  When the initializer of a
    declaration raises - as [x - y] does on two identifiers, with
    TypeError - the walk stops at that declaration with that exception,
    whatever follows is not analysed, and the declared variable stays in
    the current scope with its data type None. *)
Theorem failing_initializer_aborts_the_walk (rt : PyRuntime) (ctx : VarDeclContext)
    (e : ExpressionContext) (err : exn) (rest : ProgramContext) (self : Analyzer rt) :
  ScopeManager.get_symbol (IDENTIFIER ctx) (scope_manager self) = None ->
  expression ctx = Some e ->
  visitExpression rt e = Raise err ->
  visitProgram rt (Declaration_varDecl ctx :: rest) self
  = (declare rt (IDENTIFIER ctx) self, Raise err)
  /\ symbol_type rt (declare rt (IDENTIFIER ctx) self) (new_symbol (IDENTIFIER ctx) self)
     = Some VNone
  /\ visitExpression rt x_minus_y = Raise TypeError.
Proof.
  intros Hfresh He Herr. split; [|split].
  - cbn [visitProgram visitDeclaration varDecl].
    by rewrite (visitVarDecl_fresh rt ctx self Hfresh), He, Herr.
  - unfold symbol_type. cbn [obj_type new_symbol]. by rewrite store_declare.
  - reflexivity.
Qed.

Lemma failing_initializer_aborts_the_walk_witness :
  snd (visitProgram plain_classes bad_then_good (init plain_classes)) = Raise TypeError
  /\ ScopeManager.get_symbol "b"
       (scope_manager (fst (visitProgram plain_classes bad_then_good (init plain_classes))))
     = None.
Proof.
  pose proof (failing_initializer_aborts_the_walk plain_classes
                {| IDENTIFIER := "a"; expression := Some x_minus_y |} x_minus_y TypeError
                [var_init "b" (number "1")] (init plain_classes)
                eq_refl eq_refl eq_refl) as [H _].
  unfold bad_then_good. rewrite H. split; reflexivity.
Defined.

(** C3, as stated, fails at [var a = x - y; var b = 1;]: the walk does not
    run to completion, with any classes in Model/data_types.py. *)
Lemma analysis_does_not_always_complete :
  ~ exists (rt : PyRuntime) (self : Analyzer rt),
      visitProgram rt bad_then_good (init rt) = (self, Ok tt).
Proof.
  intros (rt & self & H). vm_compute in H. discriminate H.
Qed.

(** C6: the second of two declarations of a name in the same scope raises
    the one exception of [visitVarDecl], "Variable ... already exists in
    the current scope.", before anything is changed: the analyzer it
    leaves is the one it found, so that the first Symbol, its Variable
    and the type of the Variable are untouched, and the exception goes
    through [visitProgram] to the caller. *)
Theorem redeclaration_raises_and_changes_nothing (rt : PyRuntime) (first : VarDeclContext)
    (initializer : option ExpressionContext) (self : Analyzer rt) :
  let second := {| IDENTIFIER := IDENTIFIER first; expression := initializer |} in
  let self1 := fst (visitVarDecl rt first self) in
  visitVarDecl rt second self1 = (self1, Raise (already_exists (IDENTIFIER first)))
  /\ (forall rest,
        visitProgram rt (Declaration_varDecl second :: rest) self1
        = (self1, Raise (already_exists (IDENTIFIER first))))
  /\ (forall rest,
        snd (visitVarDecl rt first self) = Ok tt ->
        visitProgram rt (Declaration_varDecl first :: Declaration_varDecl second :: rest) self
        = (self1, Raise (already_exists (IDENTIFIER first)))).
Proof.
  intros second self1.
  destruct (get_symbol_visitVarDecl rt first self) as [symbol Hsymbol].
  assert (H : visitVarDecl rt second self1 = (self1, Raise (already_exists (IDENTIFIER first)))).
  { by apply (visitVarDecl_existing rt second self1 symbol). }
  split; [exact H|]. split.
  - intros rest. cbn [visitProgram visitDeclaration varDecl]. by rewrite H.
  - intros rest Hok. cbn [visitProgram visitDeclaration varDecl].
    subst self1. destruct (visitVarDecl rt first self) as [s r]; cbn [fst snd] in *.
    subst r. by rewrite H.
Qed.

Lemma redeclaration_raises_and_changes_nothing_witness :
  visitProgram plain_classes x_twice (init plain_classes)
  = (fst (visitProgram plain_classes [var_init "x" (number "1")] (init plain_classes)),
     Raise (already_exists "x")).
Proof.
  apply (redeclaration_raises_and_changes_nothing plain_classes
           {| IDENTIFIER := "x"; expression := Some (expression_of (number "1")) |}
           (Some (expression_of (str_lit "a"))) (init plain_classes)).
  reflexivity.
Defined.



(** C8: the type of a Symbol is the None of [Variable(data_type=None)]
    from the moment its Symbol is in the scope; it is assigned once, when
    the initializer has been visited, to the value of the initializer;
    without an initializer the declaration succeeds and the type stays
    None.  From then on it is terminal: no later declaration changes the
    Symbol bound to the name nor the type of its Variable, and the
    declaration itself leaves the Variables made before it as they
    were. *)
Theorem symbol_type_is_assigned_once (rt : PyRuntime) (ctx : VarDeclContext)
    (later : ProgramContext) (self : Analyzer rt) :
  ScopeManager.get_symbol (IDENTIFIER ctx) (scope_manager self) = None ->
  let symbol := new_symbol (IDENTIFIER ctx) self in
  let declared := declare rt (IDENTIFIER ctx) self in
  let after := fst (visitVarDecl rt ctx self) in
  let final := fst (visitProgram rt later after) in
  ScopeManager.get_symbol (IDENTIFIER ctx) (scope_manager declared) = Some symbol
  /\ symbol_type rt declared symbol = Some VNone
  /\ symbol_type rt after symbol
     = Some (match expression ctx with
             | Some e =>
                 match visitExpression rt e with
                 | Ok expression_type => expression_type
                 | Raise _ => VNone
                 end
             | None => VNone
             end)
  /\ visitVarDecl rt {| IDENTIFIER := IDENTIFIER ctx; expression := None |} self
     = (declared, Ok tt)
  /\ ScopeManager.get_symbol (IDENTIFIER ctx) (scope_manager final) = Some symbol
  /\ symbol_type rt final symbol = symbol_type rt after symbol
  /\ (forall other : Symbol,
        obj_type other < length (store self) ->
        symbol_type rt final other = symbol_type rt self other).
Proof.
  intros Hfresh symbol declared after final.
  assert (Hafter : symbol_type rt after symbol
                   = Some (match expression ctx with
                           | Some e =>
                               match visitExpression rt e with
                               | Ok expression_type => expression_type
                               | Raise _ => VNone
                               end
                           | None => VNone
                           end)).
  { subst after. rewrite (visitVarDecl_fresh rt ctx self Hfresh).
    unfold symbol_type. cbn [obj_type symbol new_symbol].
    destruct (expression ctx) as [e|]; cbn [fst].
    - destruct (visitExpression rt e) as [t|]; cbn [fst].
      + by rewrite store_set_data_type.
      + by rewrite store_declare.
    - by rewrite store_declare. }
  assert (Hlen : length (store self) < length (store after)).
  { apply lookup_lt_is_Some. unfold symbol_type in Hafter.
    cbn [obj_type symbol new_symbol] in Hafter.
    destruct (store after !! length (store self)); [eauto|discriminate Hafter]. }
  repeat match goal with |- _ /\ _ => split end.
  - apply get_symbol_declare.
  - unfold symbol_type. cbn [obj_type symbol new_symbol]. subst declared.
    by rewrite store_declare.
  - exact Hafter.
  - by rewrite (visitVarDecl_fresh rt {| IDENTIFIER := IDENTIFIER ctx; expression := None |}
                  self Hfresh).
  - apply get_symbol_kept_visitProgram. subst after.
    rewrite scope_manager_visitVarDecl, Hfresh. apply get_symbol_declare.
  - unfold symbol_type. cbn [obj_type symbol new_symbol]. subst final.
    by rewrite store_kept_visitProgram.
  - intros other Hother. unfold symbol_type. subst final.
    destruct (store_kept_visitVarDecl rt ctx self (obj_type other) Hother) as [Hkept Hlt].
    rewrite store_kept_visitProgram by exact Hlt. subst after. by rewrite Hkept.
Qed.

Lemma symbol_type_is_assigned_once_witness :
  ScopeManager.get_symbol "a" (scope_manager (init plain_classes)) = None
  /\ symbol_type plain_classes
       (fst (visitProgram plain_classes
               [var_init "a" (number "1"); var_plain "b"; var_init "c" (str_lit "s")]
               (init plain_classes)))
       {| name := "a"; obj_type := 0; scope_level := 0 |}
     = Some (VObj NumType).
Proof.
  split; [reflexivity|].
  pose proof (symbol_type_is_assigned_once plain_classes
                {| IDENTIFIER := "a"; expression := Some (expression_of (number "1")) |}
                [var_plain "b"; var_init "c" (str_lit "s")] (init plain_classes) eq_refl)
    as (_ & _ & _ & _ & _ & H & _).
  exact H.
Defined.

(** C9: after [var x = <literal>] in a scope that does not bind [x] yet,
    the declaration has succeeded and [x] resolves to a Symbol whose type
    is the instance of the class of the literal: NumType, StringType,
    BooleanType or NilType. *)
Theorem literal_declaration_has_the_literal_type (rt : PyRuntime) (identifier : string)
    (l : Literal) (self : Analyzer rt) :
  ScopeManager.get_symbol identifier (scope_manager self) = None ->
  let ctx := {| IDENTIFIER := identifier;
                expression := Some (expression_of (unary_of (literal l))) |} in
  snd (visitVarDecl rt ctx self) = Ok tt
  /\ resolved_type rt identifier (fst (visitVarDecl rt ctx self))
     = Ok (Some (new rt (literal_class l))).
Proof.
  intros Hfresh ctx.
  rewrite (visitVarDecl_fresh rt ctx self Hfresh). cbn [expression ctx].
  rewrite visitExpression_of, visitUnary_of, visitPrimary_literal. cbn [fst snd].
  split; [done|].
  unfold resolved_type.
  rewrite (resolve_current identifier (new_symbol identifier self))
    by apply get_symbol_declare.
  cbn [bind]. unfold symbol_type. cbn [obj_type new_symbol IDENTIFIER ctx].
  by rewrite (store_set_data_type rt identifier (new rt (literal_class l)) self).
Qed.

Lemma literal_declaration_has_the_literal_type_witness :
  ScopeManager.get_symbol "x" (scope_manager (init plain_classes)) = None
  /\ resolved_type plain_classes "x"
       (fst (visitProgram plain_classes [var_init "x" (unary_of (literal Lit_true))]
               (init plain_classes)))
     = Ok (Some (VObj BooleanType)).
Proof.
  split; [reflexivity|].
  apply (literal_declaration_has_the_literal_type plain_classes "x" Lit_true
           (init plain_classes)).
  reflexivity.
Defined.

(** ** The visitor on data-type classes without special methods

    What the samples of the specification give when the classes of
    Model/data_types.py define no operator: the arithmetic and the
    ordering of two instances raise TypeError, two instances are never
    equal, and [and] returns its second operand because an instance is
    true. *)

Example one_plus_two_plain :
  visitTerm plain_classes (binary (factor_of (number "1")) "+" (factor_of (number "2")))
  = Raise TypeError.
Proof. reflexivity. Qed.

Example one_less_than_two_plain :
  visitComparison plain_classes (binary (term_of (number "1")) "<" (term_of (number "2")))
  = Raise TypeError.
Proof. reflexivity. Qed.

Example a_equals_a_plain :
  visitEquality plain_classes
    (binary (comparison_of (str_lit "a")) "==" (comparison_of (str_lit "a")))
  = Ok (VBool false).
Proof. reflexivity. Qed.

Example true_and_false_plain :
  visitLogic_and plain_classes
    (binary (equality_of (unary_of Prim_true)) "and" (equality_of (unary_of Prim_false)))
  = Ok (VObj BooleanType).
Proof. reflexivity. Qed.

Example x_plus_y_plain :
  visitTerm plain_classes (binary (factor_of (ident "x")) "+" (factor_of (ident "y")))
  = Ok (VStr "UnknownUnknown").
Proof. reflexivity. Qed.

(** ** The walk over a program *)

Section WalkFacts.
Variable rt : PyRuntime.

Lemma visitVarDecl_Ok_fresh ctx self :
  snd (visitVarDecl rt ctx self) = Ok tt ->
  ScopeManager.get_symbol (IDENTIFIER ctx) (scope_manager self) = None.
Proof.
  intros Hok.
  destruct (ScopeManager.get_symbol (IDENTIFIER ctx) (scope_manager self)) as [s|] eqn:H;
    [|done].
  rewrite (visitVarDecl_existing rt ctx self s H) in Hok. discriminate Hok.
Qed.

Lemma visitVarDecl_Ok_iff ctx self :
  snd (visitVarDecl rt ctx self) = Ok tt
  <-> ScopeManager.get_symbol (IDENTIFIER ctx) (scope_manager self) = None
      /\ initializer_ok rt ctx = true.
Proof.
  split.
  - intros Hok. pose proof (visitVarDecl_Ok_fresh ctx self Hok) as Hfresh.
    split; [done|]. rewrite (visitVarDecl_fresh rt ctx self Hfresh) in Hok.
    unfold initializer_ok. destruct (expression ctx) as [e|]; [|done].
    by destruct (visitExpression rt e).
  - intros [Hfresh Hinit]. rewrite (visitVarDecl_fresh rt ctx self Hfresh).
    unfold initializer_ok in Hinit. destruct (expression ctx) as [e|]; [|done].
    by destruct (visitExpression rt e).
Qed.

Lemma get_symbol_other_visitVarDecl ctx self x :
  x <> IDENTIFIER ctx ->
  ScopeManager.get_symbol x (scope_manager (fst (visitVarDecl rt ctx self)))
  = ScopeManager.get_symbol x (scope_manager self).
Proof.
  intros Hne. rewrite scope_manager_visitVarDecl.
  destruct (ScopeManager.get_symbol (IDENTIFIER ctx) (scope_manager self)); [done|].
  by apply get_symbol_declare_ne.
Qed.

Lemma visitProgram_cons_varDecl v children self :
  visitProgram rt (Declaration_varDecl v :: children) self
  = match visitVarDecl rt v self with
    | (self', Ok _) => visitProgram rt children self'
    | (self', Raise err) => (self', Raise err)
    end.
Proof. reflexivity. Qed.

Lemma visitProgram_cons_other children self :
  visitProgram rt (Declaration_other :: children) self = visitProgram rt children self.
Proof. reflexivity. Qed.
End WalkFacts.

(** X1: the walk over a program in two parts.  Walking [first ++ second]
    is walking [first] and, when that raised nothing, walking [second]
    from the analyzer it left; an exception in [first] is the result, with
    the analyzer as it was left at the raise. *)
Theorem visitProgram_app (rt : PyRuntime) (first second : ProgramContext) (self : Analyzer rt) :
  visitProgram rt (first ++ second)%list self
  = match visitProgram rt first self with
    | (self', Ok _) => visitProgram rt second self'
    | (self', Raise err) => (self', Raise err)
    end.
Proof.
  revert self. induction first as [|child children IH]; intros self; [done|].
  cbn [app visitProgram].
  destruct (visitDeclaration rt child self) as [self' [[]|err]]; [apply IH|done].
Qed.

(** X2: only variable declarations are analysed.  A child of the program
    that is a class, a function or a statement is skipped unvisited, so
    that the walk is the walk over the variable declarations alone. *)
Theorem visitProgram_skips_other_declarations (rt : PyRuntime) (ctx : ProgramContext)
    (self : Analyzer rt) :
  visitProgram rt ctx self = visitProgram rt (Declaration_varDecl <$> varDecls ctx) self.
Proof.
  revert self. induction ctx as [|child children IH]; intros self; [done|].
  destruct child as [v|].
  - change (varDecls (Declaration_varDecl v :: children)) with (v :: varDecls children).
    rewrite fmap_cons, !visitProgram_cons_varDecl.
    destruct (visitVarDecl rt v self) as [self' [[]|err]]; [apply IH|done].
  - rewrite visitProgram_cons_other. apply IH.
Qed.

(** X3: when the walk completes.  [visitProgram] returns without an
    exception exactly when the declared names are pairwise distinct, none
    of them is bound in the current scope beforehand, and every
    initializer is visited without an exception. *)
Theorem visitProgram_completes_iff (rt : PyRuntime) (ctx : ProgramContext) (self : Analyzer rt) :
  snd (visitProgram rt ctx self) = Ok tt
  <-> NoDup (declared_names ctx)
      /\ Forall (fun x => ScopeManager.get_symbol x (scope_manager self) = None)
           (declared_names ctx)
      /\ Forall (fun v => initializer_ok rt v = true) (varDecls ctx).
Proof.
  rewrite visitProgram_skips_other_declarations. unfold declared_names.
  generalize (varDecls ctx) as vs. clear ctx. intros vs. revert self.
  induction vs as [|v vs IH]; intros self.
  - cbn. split; [intros _|done]. split; [constructor|]. split; constructor.
  - rewrite !fmap_cons, visitProgram_cons_varDecl.
    pose proof (visitVarDecl_Ok_iff rt v self) as Hv.
    pose proof (get_symbol_visitVarDecl rt v self) as Hbound.
    pose proof (get_symbol_other_visitVarDecl rt v self) as Hother.
    destruct (visitVarDecl rt v self) as [self' [[]|err]]; cbn [fst snd] in *.
    + destruct (proj1 Hv eq_refl) as [Hfresh Hinit]. rewrite IH. split.
      * intros (Hnd & Hfr & Hin).
        assert (Hnotin : IDENTIFIER v ∉ IDENTIFIER <$> vs).
        { intros Hin'. rewrite Forall_forall in Hfr. rewrite (Hfr _ Hin') in Hbound.
          by destruct Hbound. }
        split; [by constructor|]. split; [|by constructor].
        constructor; [done|]. rewrite Forall_forall in Hfr |- *.
        intros x Hx. rewrite <- (Hother x); [by apply Hfr|]. by intros ->.
      * intros (Hnd & Hfr & Hin).
        apply NoDup_cons in Hnd as [Hnotin Hnd].
        apply Forall_cons in Hfr as [_ Hfr]. apply Forall_cons in Hin as [_ Hin].
        split; [done|]. split; [|done].
        rewrite Forall_forall in Hfr |- *.
        intros x Hx. rewrite (Hother x); [by apply Hfr|]. by intros ->.
    + split; [discriminate|]. intros (_ & Hfr & Hin).
      apply Forall_cons in Hfr as [Hfresh _]. apply Forall_cons in Hin as [Hinit _].
      by apply (proj2 Hv).
Qed.

Lemma visitProgram_completes_iff_witness :
  snd (visitProgram plain_classes mixed_program (init plain_classes)) = Ok tt
  /\ snd (visitProgram plain_classes x_twice (init plain_classes)) <> Ok tt.
Proof.
  split.
  - apply (visitProgram_completes_iff plain_classes mixed_program (init plain_classes)).
    split; [|split].
    + apply (bool_decide_unpack _). reflexivity.
    + repeat constructor.
    + repeat constructor.
  - intros H.
    apply (visitProgram_completes_iff plain_classes x_twice (init plain_classes)) in H
      as [Hnd _].
    vm_compute in Hnd. apply NoDup_cons in Hnd as [Hnotin _]. set_solver.
Defined.

Section WalkInvariants.
Variable rt : PyRuntime.

Lemma length_store_visitVarDecl ctx self :
  length (store (fst (visitVarDecl rt ctx self)))
  = match ScopeManager.get_symbol (IDENTIFIER ctx) (scope_manager self) with
    | Some _ => length (store self)
    | None => S (length (store self))
    end.
Proof.
  unfold visitVarDecl.
  destruct (ScopeManager.get_symbol _ _); [done|].
  assert (Hd : length (store (declare rt (IDENTIFIER ctx) self)) = S (length (store self))).
  { simpl. rewrite length_app. simpl. lia. }
  destruct (expression ctx) as [e|]; [|done].
  destruct (visitExpression rt e); [|done].
  cbn [fst set_data_type store]. by rewrite length_insert.
Qed.

Lemma symbol_type_visitVarDecl ctx self :
  ScopeManager.get_symbol (IDENTIFIER ctx) (scope_manager self) = None ->
  symbol_type rt (fst (visitVarDecl rt ctx self)) (new_symbol (IDENTIFIER ctx) self)
  = Some (initial_type rt ctx).
Proof.
  intros Hfresh. rewrite (visitVarDecl_fresh rt ctx self Hfresh).
  unfold symbol_type, initial_type. cbn [obj_type new_symbol].
  destruct (expression ctx) as [e|]; cbn [fst].
  - destruct (visitExpression rt e) as [t|]; cbn [fst].
    + by rewrite store_set_data_type.
    + by rewrite store_declare.
  - by rewrite store_declare.
Qed.

Lemma scope_ok_mono n m scope : n <= m -> scope_ok n scope -> scope_ok m scope.
Proof.
  intros Hle Hok x symbol Hx. destruct (Hok x symbol Hx) as (? & ? & ?).
  repeat split; try done. lia.
Qed.

Lemma well_formed_init : well_formed rt (init rt).
Proof.
  constructor; [|constructor]. intros x symbol Hx. cbn in Hx.
  by rewrite lookup_empty in Hx.
Qed.

Lemma well_formed_visitVarDecl ctx self :
  well_formed rt self -> well_formed rt (fst (visitVarDecl rt ctx self)).
Proof.
  unfold well_formed. intros Hwf.
  rewrite length_store_visitVarDecl, scope_manager_visitVarDecl.
  destruct (ScopeManager.get_symbol (IDENTIFIER ctx) (scope_manager self)); [done|].
  apply Forall_cons in Hwf as [Hcur Houter]. cbn. constructor.
  - intros x symbol. cbn.
    destruct (decide (IDENTIFIER ctx = x)) as [<-|Hne].
    + rewrite lookup_insert_eq. intros [= <-]. cbn. repeat split; try done. lia.
    + rewrite lookup_insert_ne by done. intros Hx.
      destruct (Hcur x symbol Hx) as (? & ? & ?). repeat split; try done. lia.
  - eapply Forall_impl; [exact Houter|]. intros scope. apply scope_ok_mono. lia.
Qed.
End WalkInvariants.

(** X4: what the walk never touches.  Whatever the program and whether
    the walk completes or raises, the enclosing scopes, the id of the
    current scope and the scope counter are left as they were (no scope
    is entered or left), and a name bound in the current scope afterwards
    was bound there before or is one of the declared names. *)
Theorem visitProgram_only_adds_declared_names (rt : PyRuntime) (ctx : ProgramContext)
    (self : Analyzer rt) :
  let final := fst (visitProgram rt ctx self) in
  enclosing (scope_manager final) = enclosing (scope_manager self)
  /\ ScopeManager.current_scope (scope_manager final)
     = ScopeManager.current_scope (scope_manager self)
  /\ next_id (scope_manager final) = next_id (scope_manager self)
  /\ (forall x,
        is_Some (ScopeManager.get_symbol x (scope_manager final)) ->
        is_Some (ScopeManager.get_symbol x (scope_manager self)) \/ x ∈ declared_names ctx).
Proof.
  cbv zeta. revert self. induction ctx as [|child children IH]; intros self.
  - cbn. repeat split; try done. by left.
  - destruct child as [v|]; [|exact (IH self)].
    rewrite visitProgram_cons_varDecl.
    pose proof (scope_manager_visitVarDecl rt v self) as Hsm.
    pose proof (get_symbol_other_visitVarDecl rt v self) as Hother.
    assert (Hstep : enclosing (scope_manager (fst (visitVarDecl rt v self)))
                    = enclosing (scope_manager self)
                    /\ ScopeManager.current_scope (scope_manager (fst (visitVarDecl rt v self)))
                       = ScopeManager.current_scope (scope_manager self)
                    /\ next_id (scope_manager (fst (visitVarDecl rt v self)))
                       = next_id (scope_manager self)).
    { rewrite Hsm. by destruct (ScopeManager.get_symbol _ _). }
    assert (Hnames : forall x,
               is_Some (ScopeManager.get_symbol x (scope_manager (fst (visitVarDecl rt v self)))) ->
               is_Some (ScopeManager.get_symbol x (scope_manager self))
               \/ x ∈ declared_names (Declaration_varDecl v :: children)).
    { intros x Hx. destruct (decide (x = IDENTIFIER v)) as [->|Hne].
      - right. apply list_elem_of_here.
      - left. by rewrite <- (Hother x Hne). }
    destruct (visitVarDecl rt v self) as [self' [[]|err]]; cbn [fst] in *.
    + destruct (IH self') as (He & Hc & Hn & Hb).
      destruct Hstep as (He' & Hc' & Hn').
      repeat split; [congruence..|].
      intros x Hx. destruct (Hb x Hx) as [Hx'|Hx'].
      * by apply Hnames.
      * right. by apply list_elem_of_further.
    + destruct Hstep as (He' & Hc' & Hn'). by repeat split.
Qed.

(** X5: what a completed walk leaves.  When [visitProgram] returns without
    an exception, the store holds one new Variable for each variable
    declaration, and every declared name is bound in the current scope to
    a Symbol whose data type is the value of its initializer (None for a
    declaration without one). *)
Theorem completed_walk_types_every_declaration (rt : PyRuntime) (ctx : ProgramContext)
    (self : Analyzer rt) :
  snd (visitProgram rt ctx self) = Ok tt ->
  let final := fst (visitProgram rt ctx self) in
  length (store final) = length (store self) + length (varDecls ctx)
  /\ Forall (fun v => exists symbol,
                 ScopeManager.get_symbol (IDENTIFIER v) (scope_manager final) = Some symbol
                 /\ symbol_type rt final symbol = Some (initial_type rt v))
       (varDecls ctx).
Proof.
  cbv zeta. revert self. induction ctx as [|child children IH]; intros self Hok.
  - cbn. split; [lia|constructor].
  - destruct child as [v|]; [|exact (IH self Hok)].
    change (varDecls (Declaration_varDecl v :: children)) with (v :: varDecls children).
    rewrite visitProgram_cons_varDecl in Hok |- *.
    pose proof (visitVarDecl_Ok_fresh rt v self) as Hfresh.
    pose proof (length_store_visitVarDecl rt v self) as Hlen.
    pose proof (symbol_type_visitVarDecl rt v self) as Htype.
    pose proof (scope_manager_visitVarDecl rt v self) as Hsm.
    destruct (visitVarDecl rt v self) as [self' [[]|err]]; cbn [fst snd] in *;
      [|discriminate Hok].
    specialize (Hfresh eq_refl). rewrite Hfresh in Hlen, Hsm. specialize (Htype Hfresh).
    destruct (IH self' Hok) as [Hcount Hall]. split.
    + rewrite Hcount, Hlen. cbn [length]. lia.
    + constructor; [|exact Hall].
      exists (new_symbol (IDENTIFIER v) self). split.
      * apply get_symbol_kept_visitProgram. rewrite Hsm. apply get_symbol_declare.
      * unfold symbol_type in *. cbn [obj_type new_symbol] in *.
        rewrite store_kept_visitProgram; [done|]. lia.
Qed.

Lemma completed_walk_types_every_declaration_witness :
  length (store (fst (visitProgram plain_classes mixed_program (init plain_classes)))) = 2.
Proof.
  pose proof (completed_walk_types_every_declaration plain_classes mixed_program
                (init plain_classes) eq_refl) as [H _].
  exact H.
Defined.

(** X6: the invariant of the symbol table.  In a well-formed analyzer
    every Symbol of every active scope is filed under its own name,
    refers to a Variable that exists, and carries the id of its scope as
    scope level.  The walk keeps the analyzer well formed, whether it
    completes or raises (and the analyzer it starts from, the new one, is
    well formed). *)
Theorem visitProgram_keeps_well_formed (rt : PyRuntime) (ctx : ProgramContext)
    (self : Analyzer rt) :
  well_formed rt self ->
  well_formed rt (fst (visitProgram rt ctx self)).
Proof.
  revert self. induction ctx as [|child children IH]; intros self Hwf; [done|].
  destruct child as [v|]; [|exact (IH self Hwf)].
  rewrite visitProgram_cons_varDecl.
  pose proof (well_formed_visitVarDecl rt v self Hwf) as Hwf'.
  destruct (visitVarDecl rt v self) as [self' [[]|err]]; cbn [fst] in *;
    [by apply IH|done].
Qed.

Lemma visitProgram_keeps_well_formed_witness :
  well_formed plain_classes (fst (visitProgram plain_classes bad_then_good (init plain_classes))).
Proof.
  apply (visitProgram_keeps_well_formed plain_classes bad_then_good (init plain_classes)).
  apply well_formed_init.
Defined.

(** ** More on the expression layers *)

Section LayerFacts.
Variable rt : PyRuntime.
Abbreviation val := (value (Obj rt)).

(** A [break] after the second operand: the rest of the operands is not
    visited. *)
Lemma visitLayer_break {C : Type} (visit : C -> outcome val) step brk
    (ctx : Layer C) tok c rest v0 v1 r :
  operands ctx = (tok, c) :: rest ->
  visit (operand0 ctx) = Ok v0 ->
  visit c = Ok v1 ->
  step tok v0 v1 = Ok r ->
  brk r = true ->
  visitLayer rt visit step brk ctx = Ok r.
Proof.
  intros Hops H0 H1 Hstep Hbrk. unfold visitLayer.
  rewrite H0, Hops. cbn [bind for_operands]. rewrite H1. cbn [bind].
  rewrite Hstep. cbn [bind]. by rewrite Hbrk.
Qed.

Lemma visitPrimary_Ok p : exists v, visitPrimary rt p = Ok v /\ v <> VNone.
Proof.
  unfold visitPrimary.
  destruct (is_not_None (NUMBER p)); [by eexists|].
  destruct (is_not_None (STRING p)); [by eexists|].
  destruct (_ || _); [by eexists|].
  destruct (_ || _); by eexists.
Qed.

Lemma visitUnary_Ok u : exists v, visitUnary rt u = Ok v.
Proof.
  destruct u as [operator operand|[p|]]; [by eexists| |by eexists].
  destruct (visitPrimary_Ok p) as (v & Hv & _). by exists v.
Qed.

Lemma equality_step_bool tok (a b : val) :
  tok ∈ ["=="; "!="] ->
  is_object a = false ->
  is_object b = false ->
  exists r, equality_step rt tok a b = Ok (VBool r).
Proof.
  intros Htok Ha Hb.
  assert (Hcases : tok = "==" \/ tok = "!=").
  { apply elem_of_cons in Htok as [->|Htok]; [by left|].
    apply list_elem_of_singleton in Htok. by right. }
  destruct Hcases as [-> | ->]; destruct a, b; try discriminate; by eexists.
Qed.

Lemma equality_loop_bool {C : Type} (visit : C -> outcome val) (rest : list (string * C)) :
  forall (result : val) (vs : list val),
    rest <> [] ->
    is_object result = false ->
    Forall2 (fun c v => visit c = Ok v) (snd <$> rest) vs ->
    Forall (fun v => is_object v = false) vs ->
    Forall (fun tok => tok ∈ ["=="; "!="]) (fst <$> rest) ->
    exists r, for_operands rt visit (equality_step rt) (fun r => negb (py_truthy rt r))
                result rest = Ok (VBool r).
Proof.
  induction rest as [|[tok c] rest IH]; intros result vs Hne Hres Hvs Hobj Htok; [done|].
  inversion Hvs as [|? v ? vs' Hv Hvs']; subst.
  apply Forall_cons in Hobj as [Hv_obj Hobj].
  rewrite fmap_cons in Htok. apply Forall_cons in Htok as [Htok0 Htok].
  cbn [for_operands]. rewrite Hv. cbn [bind].
  destruct (equality_step_bool tok result v Htok0 Hres Hv_obj) as [r Hr].
  rewrite Hr. cbn [bind].
  destruct (negb (py_truthy rt (VBool r))); [by exists r|].
  destruct rest as [|next rest]; [by exists r|].
  by apply (IH (VBool r) vs').
Qed.

Lemma first_truthy_or_last_elem v0 vs : first_truthy_or_last rt v0 vs ∈ v0 :: vs.
Proof.
  revert v0. induction vs as [|v vs IH]; intros v0.
  - rewrite first_truthy_or_last_nil. apply list_elem_of_here.
  - destruct (py_truthy rt v0) eqn:H.
    + rewrite first_truthy_or_last_truthy by done. apply list_elem_of_here.
    + rewrite first_truthy_or_last_falsy by done. apply list_elem_of_further, IH.
Qed.

Lemma first_falsy_or_last_elem v0 vs : first_falsy_or_last rt v0 vs ∈ v0 :: vs.
Proof.
  revert v0. induction vs as [|v vs IH]; intros v0.
  - rewrite first_falsy_or_last_nil. apply list_elem_of_here.
  - destruct (py_truthy rt v0) eqn:H.
    + rewrite first_falsy_or_last_truthy by done. apply list_elem_of_further, IH.
    + rewrite first_falsy_or_last_falsy by done. apply list_elem_of_here.
Qed.
End LayerFacts.

(** X7: a false result ends a comparison and an equality chain.  When the
    first operator of a relational or an equality expression gives a
    false value, that value is the result: the operands after the second
    are not visited, so an exception they would raise does not occur. *)
Theorem false_result_ends_the_chain (rt : PyRuntime) :
  (forall (ctx : ComparisonContext) tok c rest v0 v1 r,
     operands ctx = (tok, c) :: rest ->
     visitTerm rt (operand0 ctx) = Ok v0 ->
     visitTerm rt c = Ok v1 ->
     comparison_step rt tok v0 v1 = Ok r ->
     py_truthy rt r = false ->
     visitComparison rt ctx = Ok r)
  /\
  (forall (ctx : EqualityContext) tok c rest v0 v1 r,
     operands ctx = (tok, c) :: rest ->
     visitComparison rt (operand0 ctx) = Ok v0 ->
     visitComparison rt c = Ok v1 ->
     equality_step rt tok v0 v1 = Ok r ->
     py_truthy rt r = false ->
     visitEquality rt ctx = Ok r).
Proof.
  split; intros ctx tok c rest v0 v1 r Hops H0 H1 Hstep Hr.
  - apply (visitLayer_break rt _ _ _ ctx tok c rest v0 v1 r); try done. by rewrite Hr.
  - apply (visitLayer_break rt _ _ _ ctx tok c rest v0 v1 r); try done. by rewrite Hr.
Qed.

Lemma false_result_ends_the_chain_witness :
  visitComparison plain_classes x_lt_y_lt_z_minus_w = Ok (VBool false)
  /\ visitEquality plain_classes x_ne_y_eq_z = Ok (VBool false).
Proof.
  split.
  - apply (proj1 (false_result_ends_the_chain plain_classes) x_lt_y_lt_z_minus_w
             "<" (term_of (ident "y"))
             [("<", binary (factor_of (ident "z")) "-" (factor_of (ident "w")))]
             (VStr "Unknown") (VStr "Unknown") (VBool false));
      reflexivity.
  - apply (proj2 (false_result_ends_the_chain plain_classes) x_ne_y_eq_z
             "!=" (comparison_of (ident "y")) [("==", comparison_of (ident "z"))]
             (VStr "Unknown") (VStr "Unknown") (VBool false));
      reflexivity.
Defined.

(** X8: an equality between values that are no objects is a bool.  When
    the operands of an equality expression with at least one [==] or [!=]
    have values among None, the bools and the strings, the expression
    raises nothing and its result is a Python bool - not a data type. *)
Theorem equality_of_plain_values_is_a_bool (rt : PyRuntime) (ctx : EqualityContext)
    (v0 : value (Obj rt)) (vs : list (value (Obj rt))) :
  operands ctx <> [] ->
  visitComparison rt (operand0 ctx) = Ok v0 ->
  Forall2 (fun c v => visitComparison rt c = Ok v) (snd <$> operands ctx) vs ->
  Forall (fun v => is_object v = false) (v0 :: vs) ->
  Forall (fun tok => tok ∈ ["=="; "!="]) (fst <$> operands ctx) ->
  exists r, visitEquality rt ctx = Ok (VBool r).
Proof.
  intros Hne H0 Hvs Hobj Htok. apply Forall_cons in Hobj as [Hobj0 Hobj].
  unfold visitEquality, visitLayer. rewrite H0. cbn [bind].
  by apply (equality_loop_bool rt _ (operands ctx) v0 vs).
Qed.

Lemma equality_of_plain_values_is_a_bool_witness :
  exists r, visitEquality plain_classes x_ne_y_eq_z = Ok (VBool r).
Proof.
  apply (equality_of_plain_values_is_a_bool plain_classes x_ne_y_eq_z
           (VStr "Unknown") [VStr "Unknown"; VStr "Unknown"]).
  - discriminate.
  - reflexivity.
  - repeat constructor.
  - repeat constructor.
  - repeat constructor.
Defined.

(** X9: the operators between two identifiers.  Whatever the two names
    are and whatever they were declared as, [==] gives the bool True and
    [!=] the bool False (both operands are the same string), [+] gives
    the string "UnknownUnknown", and [-], [*] and [/] raise TypeError. *)
Theorem operators_between_identifiers (rt : PyRuntime) (x y : string) :
  reserved x = false ->
  reserved y = false ->
  let eq operator := visitEquality rt
                       (binary (comparison_of (ident x)) operator (comparison_of (ident y))) in
  let add operator := visitTerm rt (binary (factor_of (ident x)) operator (factor_of (ident y))) in
  let mul operator := visitFactor rt (binary (ident x) operator (ident y)) in
  eq "==" = Ok (VBool true)
  /\ eq "!=" = Ok (VBool false)
  /\ add "+" = Ok (VStr "UnknownUnknown")
  /\ add "-" = Raise TypeError
  /\ mul "*" = Raise TypeError
  /\ mul "/" = Raise TypeError.
Proof.
  intros Hx Hy eq add mul.
  assert (Hx' : visitUnary rt (ident x) = Ok (VStr "Unknown")).
  { unfold ident. by rewrite visitUnary_of, visitPrimary_IDENTIFIER. }
  assert (Hy' : visitUnary rt (ident y) = Ok (VStr "Unknown")).
  { unfold ident. by rewrite visitUnary_of, visitPrimary_IDENTIFIER. }
  assert (Heq : forall operator,
             eq operator = equality_step rt operator (VStr "Unknown") (VStr "Unknown")).
  { intros operator. unfold eq, visitEquality.
    by rewrite visitLayer_binary, !visitComparison_of, Hx', Hy'. }
  assert (Hadd : forall operator,
             add operator = term_step rt operator (VStr "Unknown") (VStr "Unknown")).
  { intros operator. unfold add, visitTerm.
    by rewrite visitLayer_binary, !visitFactor_of, Hx', Hy'. }
  assert (Hmul : forall operator,
             mul operator = factor_step rt operator (VStr "Unknown") (VStr "Unknown")).
  { intros operator. unfold mul, visitFactor. by rewrite visitLayer_binary, Hx', Hy'. }
  rewrite !Heq, !Hadd, !Hmul. repeat split; reflexivity.
Qed.

Lemma operators_between_identifiers_witness :
  reserved "total" = false /\ reserved "count" = false
  /\ visitTerm plain_classes
       (binary (factor_of (ident "total")) "-" (factor_of (ident "count")))
     = Raise TypeError.
Proof.
  split; [reflexivity|]. split; [reflexivity|].
  apply (operators_between_identifiers plain_classes "total" "count"); reflexivity.
Defined.



(** X11: a chain of comparisons compares a bool.  In [x op1 y op2 z] on
    three identifiers the second operator is applied to the bool the
    first one gave: after [<=] or [>=] (True) it compares a bool with a
    string and raises TypeError; after [<] or [>] (False) the loop is left
    and the result is False. *)
Theorem comparison_chain_of_identifiers (rt : PyRuntime) (x y z op1 op2 : string) :
  reserved x = false ->
  reserved y = false ->
  reserved z = false ->
  op2 ∈ ["<"; ">"; "<="; ">="] ->
  let chain := {| operand0 := term_of (ident x);
                  operands := [(op1, term_of (ident y)); (op2, term_of (ident z))] |} in
  (op1 ∈ ["<="; ">="] -> visitComparison rt chain = Raise TypeError)
  /\ (op1 ∈ ["<"; ">"] -> visitComparison rt chain = Ok (VBool false)).
Proof.
  intros Hx Hy Hz Hop2 chain. unfold chain, visitComparison, visitLayer.
  cbn [operand0 operands for_operands]. rewrite !visitTerm_of. unfold ident.
  rewrite !visitUnary_of, (visitPrimary_IDENTIFIER rt x Hx),
    (visitPrimary_IDENTIFIER rt y Hy), (visitPrimary_IDENTIFIER rt z Hz).
  cbn [bind].
  split; intros Hop1;
    repeat (apply elem_of_cons in Hop1 as [->|Hop1]);
    try (by apply elem_of_nil in Hop1);
    try reflexivity;
    repeat (apply elem_of_cons in Hop2 as [->|Hop2]);
    try (by apply elem_of_nil in Hop2);
    reflexivity.
Qed.

Lemma comparison_chain_of_identifiers_witness :
  visitComparison plain_classes
    {| operand0 := term_of (ident "a");
       operands := [("<=", term_of (ident "b")); ("<=", term_of (ident "c"))] |}
  = Raise TypeError.
Proof.
  apply (comparison_chain_of_identifiers plain_classes "a" "b" "c" "<=" "<=");
    try reflexivity; repeat constructor.
Defined.

(** X12: a logical expression returns one of its operands.  When the
    operands of a logical-or or a logical-and have values, the result is
    one of these values: the layer builds no value of its own, neither a
    bool nor a data type. *)
Theorem logic_result_is_an_operand (rt : PyRuntime) :
  (forall (ctx : Logic_orContext) v0 vs,
     visitLogic_and rt (operand0 ctx) = Ok v0 ->
     Forall2 (fun c v => visitLogic_and rt c = Ok v) (snd <$> operands ctx) vs ->
     exists v, visitLogic_or rt ctx = Ok v /\ v ∈ v0 :: vs)
  /\
  (forall (ctx : Logic_andContext) v0 vs,
     visitEquality rt (operand0 ctx) = Ok v0 ->
     Forall2 (fun c v => visitEquality rt c = Ok v) (snd <$> operands ctx) vs ->
     exists v, visitLogic_and rt ctx = Ok v /\ v ∈ v0 :: vs).
Proof.
  split; intros ctx v0 vs H0 Hvs.
  - exists (first_truthy_or_last rt v0 vs). split; [|apply first_truthy_or_last_elem].
    unfold visitLogic_or, visitLayer. rewrite H0; cbn [bind]. by apply logic_or_loop.
  - exists (first_falsy_or_last rt v0 vs). split; [|apply first_falsy_or_last_elem].
    unfold visitLogic_and, visitLayer. rewrite H0; cbn [bind]. by apply logic_and_loop.
Qed.

Lemma logic_result_is_an_operand_witness :
  (exists v, visitLogic_or plain_classes x_or_1_or_y = Ok v
             /\ v ∈ [VStr "Unknown"; VObj NumType; VStr "Unknown"])
  /\ (exists v, visitLogic_and plain_classes x_and_1 = Ok v
                /\ v ∈ [VStr "Unknown"; VObj NumType]).
Proof.
  split.
  - apply (proj1 (logic_result_is_an_operand plain_classes) x_or_1_or_y
             (VStr "Unknown") [VObj NumType; VStr "Unknown"]);
      [reflexivity|repeat constructor].
  - apply (proj2 (logic_result_is_an_operand plain_classes) x_and_1
             (VStr "Unknown") [VObj NumType]);
      [reflexivity|repeat constructor].
Defined.

(** X13: an initializer without a binary operator cannot fail.  Visiting
    a unary - a primary of any kind, a call, a prefixed unary - raises
    nothing, so that a declaration [var x = u;] succeeds exactly when [x]
    is not bound in the current scope, and so does a declaration without
    initializer. *)
Theorem operator_free_declaration_succeeds_iff_fresh (rt : PyRuntime) (identifier : string)
    (u : UnaryContext) (self : Analyzer rt) :
  (snd (visitVarDecl rt {| IDENTIFIER := identifier; expression := Some (expression_of u) |}
          self) = Ok tt
   <-> ScopeManager.get_symbol identifier (scope_manager self) = None)
  /\
  (snd (visitVarDecl rt {| IDENTIFIER := identifier; expression := None |} self) = Ok tt
   <-> ScopeManager.get_symbol identifier (scope_manager self) = None).
Proof.
  split; rewrite visitVarDecl_Ok_iff; cbn [IDENTIFIER]; unfold initializer_ok;
    cbn [expression].
  - rewrite visitExpression_of. destruct (visitUnary_Ok rt u) as [v ->]. tauto.
  - tauto.
Qed.

(** X14: every name has a Variable of its own.  In a well-formed analyzer
    where no two names of the current scope share a Variable, the walk
    keeps it so, whether it completes or raises: the Variable made for a
    declaration is referred to by no other Symbol of the scope, so that
    the assignment of its data type changes the type of that name only. *)
Theorem visitProgram_keeps_distinct_variables (rt : PyRuntime) (ctx : ProgramContext)
    (self : Analyzer rt) :
  well_formed rt self ->
  distinct_variables rt self ->
  distinct_variables rt (fst (visitProgram rt ctx self)).
Proof.
  revert self. induction ctx as [|child children IH]; intros self Hwf Hdist; [done|].
  destruct child as [v|]; [|exact (IH self Hwf Hdist)].
  rewrite visitProgram_cons_varDecl.
  pose proof (well_formed_visitVarDecl rt v self Hwf) as Hwf'.
  assert (Hdist' : distinct_variables rt (fst (visitVarDecl rt v self))).
  { unfold distinct_variables. rewrite scope_manager_visitVarDecl.
    destruct (ScopeManager.get_symbol (IDENTIFIER v) (scope_manager self)) eqn:Hfresh;
      [exact Hdist|].
    apply Forall_cons in Hwf as [Hcur _].
    assert (Hold : forall z sz,
               ScopeManager.get_symbol z (scope_manager self) = Some sz ->
               obj_type sz <> length (store self)).
    { intros z sz Hz. destruct (Hcur z sz Hz) as (_ & Hlt & _). lia. }
    intros x y sx sy.
    destruct (decide (IDENTIFIER v = x)) as [<-|Hx];
      destruct (decide (IDENTIFIER v = y)) as [<-|Hy]; [done|..].
    - rewrite get_symbol_declare, get_symbol_declare_ne by done.
      intros [= <-] Hsy Heq. cbn in Heq. by destruct (Hold y sy Hsy).
    - rewrite get_symbol_declare, get_symbol_declare_ne by done.
      intros Hsx [= <-] Heq. cbn in Heq. by destruct (Hold x sx Hsx).
    - rewrite !get_symbol_declare_ne by done. apply Hdist. }
  destruct (visitVarDecl rt v self) as [self' [[]|err]]; cbn [fst] in *;
    [by apply IH|done].
Qed.

Lemma visitProgram_keeps_distinct_variables_witness :
  distinct_variables plain_classes
    (fst (visitProgram plain_classes mixed_program (init plain_classes))).
Proof.
  apply (visitProgram_keeps_distinct_variables plain_classes mixed_program
           (init plain_classes)).
  - apply well_formed_init.
  - intros x y sx sy Hx. vm_compute in Hx. discriminate Hx.
Defined.

(** ** Primaries without a typing rule *)

Section PrimaryFacts.
Variable rt : PyRuntime.

Lemma visitPrimary_no_rule p :
  has_typing_rule p = false -> visitPrimary rt p = Ok (VStr "Unknown").
Proof.
  unfold has_typing_rule, reserved, visitPrimary. intros H.
  apply orb_false_elim in H as [H Hres]. apply orb_false_elim in H as [Hnum Hstr].
  apply orb_false_elim in Hres as [Hbool Hnil].
  by rewrite Hnum, Hstr, Hbool, Hnil.
Qed.

Lemma visitPrimary_rule p :
  has_typing_rule p = true -> exists c, visitPrimary rt p = Ok (new rt c).
Proof.
  unfold has_typing_rule, reserved, visitPrimary. intros H.
  destruct (is_not_None (NUMBER p)); [by eexists|].
  destruct (is_not_None (STRING p)); [by eexists|].
  cbn [orb] in H.
  destruct (String.eqb (getText p) "true" || String.eqb (getText p) "false") eqn:Hbool;
    [by eexists|].
  cbn [orb] in H. rewrite H. by eexists.
Qed.




End PrimaryFacts.

(** C2, as the code has it: an identifier is not looked up.  For every
    primary that is an identifier the engine returns the Python string
    "Unknown", whatever the scopes hold, and raises nothing.  Every
    primary without a typing rule - that is neither a NUMBER nor a STRING
    and whose text is none of [true], [false], [nil]: [this], a member of
    [super], an array, an instantiation, a parenthesized expression -
    yields this same string, and the primaries with a rule yield an
    instance of a data-type class. *)
Theorem identifier_primary_is_the_string_Unknown (rt : PyRuntime) (p : PrimaryContext)
    (tok : string) :
  has_typing_rule p = false ->
  reserved tok = false ->
  visitPrimary rt p = Ok (VStr "Unknown")
  /\ visitExpression rt (expression_of (unary_of p)) = Ok (VStr "Unknown")
  /\ visitPrimary rt (Prim_IDENTIFIER tok) = Ok (VStr "Unknown")
  /\ visitExpression rt (expression_of (ident tok)) = Ok (VStr "Unknown")
  /\ (forall inner, visitPrimary rt (Prim_paren inner) = Ok (VStr "Unknown"))
  /\ (forall text, reserved text = false -> visitPrimary rt (Prim_other text) = Ok (VStr "Unknown"))
  /\ (forall q, has_typing_rule q = true -> exists c, visitPrimary rt q = Ok (new rt c)).
Proof.
  intros Hp Htok. repeat match goal with |- _ /\ _ => split end.
  - by apply visitPrimary_no_rule.
  - rewrite visitExpression_of, visitUnary_of. by apply visitPrimary_no_rule.
  - by apply visitPrimary_IDENTIFIER.
  - rewrite visitExpression_of. by apply visitPrimary_IDENTIFIER.
  - apply visitPrimary_paren.
  - intros text Htext. by apply visitPrimary_no_rule.
  - apply visitPrimary_rule.
Qed.

Lemma identifier_primary_is_the_string_Unknown_witness :
  has_typing_rule (Prim_other "this") = false
  /\ reserved "x" = false
  /\ visitPrimary plain_classes (Prim_other "this") = Ok (VStr "Unknown")
  /\ visitPrimary plain_classes (Prim_IDENTIFIER "x") = Ok (VStr "Unknown").
Proof.
  split; [reflexivity|]. split; [reflexivity|].
  pose proof (identifier_primary_is_the_string_Unknown plain_classes (Prim_other "this") "x"
                eq_refl eq_refl) as (H1 & _ & H2 & _).
  split; [exact H1|exact H2].
Defined.

(** ** Relational expressions *)




(** ** Additive and multiplicative expressions, revisited *)




(** ** Shadowing with a failing initializer *)

